(** * OTT clickstream dashboard: filter engine, funnel flow builder and views

    A shallow embedding of [ott_app_main.py].  The pandas data frame is a
    list of typed rows together with its column labels; Python exceptions
    are an explicit error monad; Python floats are IEEE-754 binary64 values
    of the Standard Library's executable specification [SpecFloat]. *)

From Stdlib Require Import ZArith List Lia.
From Stdlib Require Import Floats.SpecFloat.
From stdpp Require Import base tactics option list strings gmap.

Local Open Scope string_scope.
Local Open Scope Z_scope.
Local Open Scope list_scope.

(** ** Python exceptions as an error monad *)

Inductive PyErr :=
  | KeyError (label : option string)
  | IndexError
  | ValueError
  | ZeroDivisionError
  | StreamlitAPIException.

Inductive result (A : Type) :=
  | Ok (a : A)
  | Raise (e : PyErr).
Arguments Ok {A} a.
Arguments Raise {A} e.

Definition bind {A B} (m : result A) (k : A -> result B) : result B :=
  match m with
  | Ok a => k a
  | Raise e => Raise e
  end.

Notation "'let*' x ':=' m 'in' k" := (bind m (fun x => k))
  (at level 10, x name, m at level 100, k at level 200).

Definition of_option {A} (e : PyErr) (o : option A) : result A :=
  match o with
  | Some a => Ok a
  | None => Raise e
  end.

(** ** Python numbers *)

Module PyFloat.

(** binary64 *)
Definition prec : Z := 53.
Definition emax : Z := 1024.

(** [float(n)] for a Python int. *)
Definition of_int (n : Z) : spec_float := binary_normalize prec emax n 0 false.

Definition mul (x y : spec_float) : spec_float := SFmul prec emax x y.
Definition div (x y : spec_float) : spec_float := SFdiv prec emax x y.

Definition leb (x y : spec_float) : bool := SFleb x y.
Definition ltb (x y : spec_float) : bool := SFltb x y.

Definition is_nan (x : spec_float) : bool :=
  match x with S754_nan => true | _ => false end.

Definition is_infinity (x : spec_float) : bool :=
  match x with S754_infinity _ => true | _ => false end.

End PyFloat.

(** A value that is a Python [int] or a Python [float]. *)
Inductive pynum :=
  | PyInt (z : Z)
  | PyFloat (f : spec_float).

(** The float a number compares as ([int]s below 2^53 convert exactly). *)
Definition as_float (x : pynum) : spec_float :=
  match x with
  | PyInt z => PyFloat.of_int z
  | PyFloat f => f
  end.

(** [a / b] on Python ints: true division, a float; both operands are
    converted to binary64 (exactly, for the row counts this program divides)
    and the quotient is rounded once. *)
Definition int_truediv (a b : Z) : result spec_float :=
  if b =? 0 then Raise ZeroDivisionError
  else Ok (PyFloat.div (PyFloat.of_int a) (PyFloat.of_int b)).

(** [x * n] for a float [x] and an int [n]. *)
Definition float_mul_int (x : spec_float) (n : Z) : spec_float :=
  PyFloat.mul x (PyFloat.of_int n).

(** ** The event table *)

(** One row of the sheet.  [event_date] is the calendar day of [event_time]
    as a day ordinal; a null cell of a text column is [None].  These four
    columns are read unconditionally by the script, before or at its first
    chart, and every frame has them.  The remaining columns ([af_campaign],
    [mp_os], the payment and pack columns, the [mp_*] device columns) are in
    [attrs], a missing key being a null cell. *)
Record Event := {
  event_date : Z;
  event_name : option string;
  platform : option string;
  user_type : option string;
  attrs : gmap string string;
}.

(** A frame: the labels of the columns it has besides the four above, and
    its rows in index order. *)
Record DataFrame := {
  columns : list string;
  rows : list Event;
}.

(** [df[mask]]: the rows whose mask entry is true, in the frame's order. *)
Definition df_mask (P : Event -> Prop) `{!forall e, Decision (P e)}
    (df : DataFrame) : DataFrame :=
  {| columns := columns df; rows := filter P (rows df) |}.

(** [df.shape[0]] *)
Definition shape0 (df : DataFrame) : Z := Z.of_nat (length (rows df)).

(** ** Step 3: the funnel steps *)

Definition funnel_steps : list string :=
  [ "SUBSCRIPTION-CURATED-PLAN-SELECTION-LAUNCH";
    "SUBSCRIPTION-CURATED-PLAN-SELECTION-PROCEED";
    "APP-SELECTION-PAGE";
    "CHOOSE_YOUR_APP_PROCEED";
    "SUBSCRIPTION-SUMMARY-LAUNCH";
    "SUBSCRIPTION-SUMMARY-PROCEED";
    "PAYMENT-INITIATE";
    "PAYMENT";
    "BINGE-SUBSCRIPTION";
    "SUBSCRIBE-SUCCESS" ].

(** ** Step 4: [create_sankey_data] *)

(** One dict of [sankey_list]. *)
Record Edge := {
  source : string;
  target : string;
  value : Z;
  percent : pynum;
}.

(** [range(n)] *)
Definition py_range (n : Z) : list nat := seq 0 (Z.to_nat n).

(** [steps[i]] for [i >= 0] *)
Definition py_index (steps : list string) (i : nat) : result string :=
  of_option IndexError (steps !! i).

(** [filtered_df[filtered_df["event_name"] == name].shape[0]] *)
Definition count_named (filtered_df : DataFrame) (name : string) : Z :=
  shape0 (df_mask (fun e => event_name e = Some name) filtered_df).

(** [(tgt_count / src_count * 100) if src_count > 0 else 0] *)
Definition conv_percent (src_count tgt_count : Z) : result pynum :=
  if src_count >? 0 then
    let* q := int_truediv tgt_count src_count in
    Ok (PyFloat (float_mul_int q 100))
  else Ok (PyInt 0).

(** The body of the [for] loop, on the list built so far. *)
Definition sankey_body (steps : list string) (filtered_df : DataFrame)
    (sankey_list : list Edge) (i : nat) : result (list Edge) :=
  let* source := py_index steps i in
  let* target := py_index steps (i + 1)%nat in
  let src_count := count_named filtered_df source in
  let tgt_count := count_named filtered_df target in
  let* conv_percent := conv_percent src_count tgt_count in
  Ok (sankey_list ++
        [ {| source := source;
             target := target;
             value := Z.min src_count tgt_count;
             percent := conv_percent |} ])%list.

(** [create_sankey_data] with the module-level list [funnel_steps] it reads
    taken as an argument. *)
Definition create_sankey_data_for (steps : list string)
    (filtered_df : DataFrame) : result (list Edge) :=
  fold_left
    (fun acc i => let* sankey_list := acc in
                  sankey_body steps filtered_df sankey_list i)
    (py_range (Z.of_nat (length steps) - 1))
    (Ok []).

Definition create_sankey_data (filtered_df : DataFrame) : result (list Edge) :=
  create_sankey_data_for funnel_steps filtered_df.

(** ** Step 5: the filters *)

(** The option every select box starts with. *)
Definition All : string := "All".

(** The filter block of the script: the date mask, then the two optional
    equality masks. *)
Definition filtered_df (df_copy : DataFrame) (start_date end_date : Z)
    (platform_sel user_type_sel : string) : DataFrame :=
  let filtered_df :=
    df_mask (fun e => event_date e >= start_date /\ event_date e <= end_date)
            df_copy in
  let filtered_df :=
    if decide (platform_sel <> All)
    then df_mask (fun e => platform e = Some platform_sel) filtered_df
    else filtered_df in
  let filtered_df :=
    if decide (user_type_sel <> All)
    then df_mask (fun e => user_type e = Some user_type_sel) filtered_df
    else filtered_df in
  filtered_df.

(** ** Step 6 and 7: the aggregations behind the charts *)

(** [df[label]] for one of the columns kept in [attrs]; a label the frame
    does not have raises [KeyError]. *)
Definition getcol (df : DataFrame) (label : string)
    : result (list (option string)) :=
  if decide (label ∈ columns df)
  then Ok (map (fun e => attrs e !! label) (rows df))
  else Raise (KeyError (Some label)).

(** [series.isin(names)]: a null cell is in no list. *)
Definition isin (names : list string) (cell : option string) : Prop :=
  match cell with
  | Some s => s ∈ names
  | None => False
  end.

#[global] Instance isin_dec names cell : Decision (isin names cell).
Proof. destruct cell; simpl; apply _. Defined.

(** The distinct non-null cells, in the order they first appear. *)
Fixpoint uniques (seen : list string) (cells : list (option string))
    : list string :=
  match cells with
  | [] => []
  | None :: cells' => uniques seen cells'
  | Some s :: cells' =>
      if decide (s ∈ seen) then uniques seen cells'
      else s :: uniques (s :: seen) cells'
  end.

(** How many cells hold [s]. *)
Definition occurrences (cells : list (option string)) (s : string) : Z :=
  Z.of_nat (length (filter (fun c => c = Some s) cells)).

(** A stable insertion sort: [x] goes before the first element it may
    precede. *)
Fixpoint insert_by {A} (before : A -> A -> bool) (x : A) (l : list A)
    : list A :=
  match l with
  | [] => [x]
  | y :: l' => if before x y then x :: l else y :: insert_by before x l'
  end.

Definition sort_by {A} (before : A -> A -> bool) (l : list A) : list A :=
  foldr (insert_by before) [] l.

(** [series.value_counts()]: nulls dropped, one row per distinct value,
    largest count first (equal counts in order of first appearance). *)
Definition value_counts (cells : list (option string)) : list (string * Z) :=
  sort_by (fun a b => snd b <=? snd a)
          (map (fun s => (s, occurrences cells s)) (uniques [] cells)).

(** [series.nlargest(n)] *)
Definition nlargest (n : Z) (s : list (string * Z)) : list (string * Z) :=
  take (Z.to_nat n) (sort_by (fun a b => snd b <=? snd a) s).

(** The value a series holds at [label], if the label is in its index. *)
Definition series_get (s : list (string * Z)) (label : string) : option Z :=
  match list_find (fun kv => fst kv = label) s with
  | Some (_, (_, c)) => Some c
  | None => None
  end.

(** [series.reindex(labels)] on a series of integer counts: every label in
    the order given, NaN where the series has no such label; once a NaN is
    there the column is a float column. *)
Definition reindex (s : list (string * Z)) (labels : list string)
    : list (string * pynum) :=
  if decide (Forall (fun l => is_Some (series_get s l)) labels)
  then map (fun l => (l, PyInt (default 0 (series_get s l)))) labels
  else map (fun l => (l, match series_get s l with
                        | Some c => PyFloat (PyFloat.of_int c)
                        | None => PyFloat S754_nan
                        end)) labels.

(** [groupby(key).size()] for a text key: null keys dropped, groups in
    ascending key order. *)
Definition group_size (keys : list (option string)) : list (string * Z) :=
  sort_by (fun a b => String.leb (fst a) (fst b))
          (map (fun s => (s, occurrences keys s)) (uniques [] keys)).

(** The tables handed to the plotting calls. *)
Inductive Chart :=
  | FunnelBar (funnel_counts : list (string * pynum))
  | SankeyFlow (labels : list string) (source_idx target_idx : list nat)
               (values : list Z) (percentages : list pynum)
  | DailyTrend (daily_events : list (Z * Z))
  | CampaignBar (campaign_summary : list (string * Z))
  | DevicePie (device_summary : list (string * Z))
  | PaymentSunburst (payment_summary : list (string * string * Z))
  | PackBar (pack_summary : list (string * Z))
  | DistributionBar (selected_col : string) (col_counts : list (string * Z)).

(** [sort_values(by the count, ascending=False)]: largest count first.  The
    order pandas gives to rows with equal counts is not fixed; here they
    keep their order, and nothing below relies on it. *)
Definition sort_desc (t : list (string * Z)) : list (string * Z) :=
  sort_by (fun a b => snd b <=? snd a) t.

(** [labels.index(x)] *)
Definition list_index (labels : list string) (x : string) : result nat :=
  of_option ValueError (fst <$> list_find (fun l => l = x) labels).

(** [[f(x) for x in l]] for an [f] that can raise. *)
Fixpoint comprehension {A B} (f : A -> result B) (l : list A)
    : result (list B) :=
  match l with
  | [] => Ok []
  | x :: l' =>
      let* y := f x in
      let* ys := comprehension f l' in
      Ok (y :: ys)
  end.

(** [plot_vertical_sankey]: the node and link tables of the figure. *)
Definition plot_vertical_sankey (filtered_df : DataFrame) : result Chart :=
  let* sankey_data := create_sankey_data filtered_df in
  let labels := funnel_steps in
  let* source_idx :=
    comprehension (fun x => list_index labels (source x)) sankey_data in
  let* target_idx :=
    comprehension (fun x => list_index labels (target x)) sankey_data in
  let values := map value sankey_data in
  let percentages := map percent sankey_data in
  Ok (SankeyFlow labels source_idx target_idx values percentages).

(** *** Funnel bar *)
Definition funnel_counts (filtered_df : DataFrame) : list (string * pynum) :=
  let funnel_df :=
    df_mask (fun e => isin funnel_steps (event_name e)) filtered_df in
  reindex (value_counts (map event_name (rows funnel_df))) funnel_steps.

(** *** Daily trend: [groupby("event_date").size()] *)
Definition daily_events (filtered_df : DataFrame) : list (Z * Z) :=
  let dates := map event_date (rows filtered_df) in
  sort_by (fun a b => fst a <=? fst b)
    (map (fun d => (d, Z.of_nat (length (filter (fun x => x = d) dates))))
         (remove_dups dates)).

(** *** Campaign conversions *)
Definition campaign_summary (filtered_df : DataFrame)
    : result (list (string * Z)) :=
  let campaign_conv :=
    df_mask (fun e => isin ["BINGE-SUBSCRIPTION"; "SUBSCRIBE-SUCCESS"]
                           (event_name e)) filtered_df in
  let* keys := getcol campaign_conv "af_campaign" in
  Ok (group_size keys).

(** *** Device / OS *)
Definition device_summary (filtered_df : DataFrame)
    : result (list (string * Z)) :=
  let* cells := getcol filtered_df "mp_os" in
  Ok (value_counts cells).

(** *** Payment method and status: both labels are looked for first. *)
Definition pair_cells (a b : list (option string))
    : list (option (string * string)) :=
  zip_with (fun x y => match x, y with
                       | Some x, Some y => Some (x, y)
                       | _, _ => None
                       end) a b.

Definition pair_leb (a b : string * string) : bool :=
  if decide (fst a = fst b) then String.leb (snd a) (snd b)
  else String.leb (fst a) (fst b).

Definition payment_summary (filtered_df : DataFrame)
    : result (option (list (string * string * Z))) :=
  if decide ("payment_method" ∈ columns filtered_df
             /\ "payment_status" ∈ columns filtered_df) then
    let* methods := getcol filtered_df "payment_method" in
    let* statuses := getcol filtered_df "payment_status" in
    let keys := pair_cells methods statuses in
    Ok (Some
          (sort_by (fun a b => pair_leb (fst a) (fst b))
             (map (fun k => (k, Z.of_nat (length
                                   (filter (fun c => c = Some k) keys))))
                  (remove_dups (omap id keys)))))
  else Ok None.

(** *** Pack popularity: only [pack_name] is looked for; the count is the
    number of non-null prices of the pack (the mean is computed beside it
    and not plotted). *)
Definition pack_summary (filtered_df : DataFrame)
    : result (option (list (string * Z))) :=
  if decide ("pack_name" ∈ columns filtered_df) then
    let* names := getcol filtered_df "pack_name" in
    let* prices := getcol filtered_df "pack_price" in
    let priced :=
      zip_with (fun n p => match p with Some _ => n | None => None end)
               names prices in
    Ok (Some (map (fun s => (s, occurrences priced s))
                  (map fst (group_size names))))
  else Ok None.

(** *** Device attribute explorer *)
Definition columns_to_visualize (df_copy : DataFrame) : list string :=
  filter (fun c => c ∈ columns df_copy)
    [ "mp_brand"; "mp_browser"; "mp_carrier"; "mp_city"; "mp_country_code";
      "mp_manufacturer"; "mp_model"; "mp_os"; "mp_os_version"; "mp_region";
      "mp_wifi" ].

(** The select box returns the option picked ([choice], the first one unless
    the user changes it), or [None] when it has no options. *)
Definition selectbox (options : list string) (choice : nat) : option string :=
  match options !! choice with
  | Some c => Some c
  | None => head options
  end.

(** [df_copy[selected_col].value_counts().nlargest(top_n)]: the frame read
    here is [df_copy]. *)
Definition col_counts (df_copy : DataFrame) (selected_col : option string)
    (top_n : Z) : result (list (string * Z)) :=
  match selected_col with
  | None => Raise (KeyError None)
  | Some c =>
      let* cells := getcol df_copy c in
      Ok (nlargest top_n (value_counts cells))
  end.

(** ** The script, chart by chart *)

(** The widget values of one run. *)
Record Widgets := {
  start_date : Z;
  end_date : Z;
  platform_sel : string;
  user_type_sel : string;
  explorer_choice : nat;
  top_n : Z;
}.

(** What one block of the script does: it plots a chart, plots nothing
    (its [if] was false), or raises. *)
Definition Block := result (option Chart).

Definition plotted {A} (mk : A -> Chart) (r : result A) : Block :=
  let* t := r in Ok (Some (mk t)).

Definition gated {A} (mk : A -> Chart) (r : result (option A)) : Block :=
  let* t := r in Ok (mk <$> t).

(** The blocks run in order; an exception ends the run with the charts
    plotted so far. *)
Fixpoint run_sections (page : list Chart) (sections : list Block)
    : list Chart * option PyErr :=
  match sections with
  | [] => (page, None)
  | Ok (Some chart) :: rest => run_sections (page ++ [chart])%list rest
  | Ok None :: rest => run_sections page rest
  | Raise e :: _ => (page, Some e)
  end.

Definition sections (df_copy : DataFrame) (w : Widgets) : list Block :=
  let fdf := filtered_df df_copy (start_date w) (end_date w)
                         (platform_sel w) (user_type_sel w) in
  let selected_col :=
    selectbox (columns_to_visualize df_copy) (explorer_choice w) in
  [ Ok (Some (FunnelBar (funnel_counts fdf)));
    plotted id (plot_vertical_sankey fdf);
    Ok (Some (DailyTrend (daily_events fdf)));
    plotted (fun t => CampaignBar (sort_desc t)) (campaign_summary fdf);
    plotted DevicePie (device_summary fdf);
    gated PaymentSunburst (payment_summary fdf);
    gated (fun t => PackBar (sort_desc t)) (pack_summary fdf);
    plotted (DistributionBar (default "" selected_col))
            (col_counts df_copy selected_col (top_n w)) ].

Definition dashboard (df_copy : DataFrame) (w : Widgets)
    : list Chart * option PyErr :=
  run_sections [] (sections df_copy w).

(** The chart a table was plotted as. *)
Definition chart_name (c : Chart) : string :=
  match c with
  | FunnelBar _ => "funnel"
  | SankeyFlow _ _ _ _ _ => "sankey"
  | DailyTrend _ => "daily"
  | CampaignBar _ => "campaign"
  | DevicePie _ => "device"
  | PaymentSunburst _ => "payment"
  | PackBar _ => "pack"
  | DistributionBar _ _ => "distribution"
  end.

(** ** Step 5: the widgets before the user touches them *)

(** [series.min()] and [series.max()] of the date column; an empty column
    has neither. *)
Definition date_min (dates : list Z) : option Z :=
  match dates with
  | [] => None
  | d :: ds => Some (foldr Z.min d ds)
  end.

Definition date_max (dates : list Z) : option Z :=
  match dates with
  | [] => None
  | d :: ds => Some (foldr Z.max d ds)
  end.

(** [["All"] + sorted(series.dropna().unique().tolist())] *)
Definition select_options (cells : list (option string)) : list string :=
  All :: sort_by String.leb (uniques [] cells).

Definition platform_options (df_copy : DataFrame) : list string :=
  select_options (map platform (rows df_copy)).

Definition user_type_options (df_copy : DataFrame) : list string :=
  select_options (map user_type (rows df_copy)).

(** The widget values of the first run: the date inputs show the first and
    the last day of the sheet, every select box its first option, the
    slider 20.  (The date inputs of an empty sheet are left out.) *)
Definition initial_widgets (df_copy : DataFrame) : option Widgets :=
  match date_min (map event_date (rows df_copy)),
        date_max (map event_date (rows df_copy)) with
  | Some first_day, Some last_day =>
      Some {| start_date := first_day;
              end_date := last_day;
              platform_sel :=
                default All (selectbox (platform_options df_copy) 0);
              user_type_sel :=
                default All (selectbox (user_type_options df_copy) 0);
              explorer_choice := 0;
              top_n := 20 |}
  | _, _ => None
  end.

(** One run of the script from Step 5 on, [w] being the widget values as
    the user has left them.  The first date input is given
    [df_copy["event_date"].min()]: on a sheet without rows that is NaN, the
    date input refuses it and the run ends there, before any chart. *)
Definition script (df_copy : DataFrame) (w : Widgets)
    : list Chart * option PyErr :=
  match date_min (map event_date (rows df_copy)) with
  | None => ([], Some StreamlitAPIException)
  | Some _ => dashboard df_copy w
  end.

(** ** Closed forms used by the proofs *)

(** [tgt_count / src_count * 100] as a float. *)
Definition percent_float (src_count tgt_count : Z) : spec_float :=
  float_mul_int (PyFloat.div (PyFloat.of_int tgt_count)
                             (PyFloat.of_int src_count)) 100.

(** The mantissa of 100.0, which is [hundred * 2^-46]. *)
Definition hundred : positive := 7036874417766400.

(** A shift record [(m, r, s)] locates the fraction [N / D]: [m] is its
    integer part and the round and sticky bits say whether the rest is
    zero, below one half, one half, or above. *)
Definition locates (mrs : shr_record) (N D : Z) : Prop :=
  let m := shr_m mrs in
  0 <= m
  /\ m * D <= N < (m + 1) * D
  /\ match shr_r mrs, shr_s mrs with
     | false, false => N = m * D
     | false, true => m * D < N /\ 2 * N < (2 * m + 1) * D
     | true, false => 2 * N = (2 * m + 1) * D
     | true, true => (2 * m + 1) * D < 2 * N
     end.

(** The value [conv_percent] returns. *)
Definition percent_of (src_count tgt_count : Z) : pynum :=
  if src_count >? 0
  then PyFloat (percent_float src_count tgt_count)
  else PyInt 0.

(** The dict appended for the pair [(source, target)]. *)
Definition edge_of (filtered_df : DataFrame) (st : string * string) : Edge :=
  let src_count := count_named filtered_df (fst st) in
  let tgt_count := count_named filtered_df (snd st) in
  {| source := fst st;
     target := snd st;
     value := Z.min src_count tgt_count;
     percent := percent_of src_count tgt_count |}.

(** The adjacent pairs of a step list, first pair first. *)
Definition adjacent (steps : list string) : list (string * string) :=
  zip steps (tail steps).

(** The conjunction the filter block implements. *)
Definition passes (start_date end_date : Z) (platform_sel user_type_sel : string)
    (e : Event) : Prop :=
  (start_date <= event_date e /\ event_date e <= end_date)
  /\ (platform_sel = All \/ platform e = Some platform_sel)
  /\ (user_type_sel = All \/ user_type e = Some user_type_sel).

#[global] Instance passes_dec sd ed p u e : Decision (passes sd ed p u e).
Proof. unfold passes. apply _. Defined.

(** Every element stands in [R] to all the elements after it. *)
Fixpoint ordered {A} (R : A -> A -> Prop) (l : list A) : Prop :=
  match l with
  | [] => True
  | x :: l' => Forall (R x) l' /\ ordered R l'
  end.

(** The sum of the count column of a table. *)
Definition total {A} (t : list (A * Z)) : Z :=
  foldr (fun r acc => snd r + acc) 0 t.

(** ** Sample data *)

(** A row with the given day, event name, platform and user type and no
    other cell filled in. *)
Definition ev (d : Z) (name plat ut : string) : Event :=
  {| event_date := d;
     event_name := Some name;
     platform := Some plat;
     user_type := Some ut;
     attrs := ∅ |}.

(** A frame holding [n] rows for every [(name, n)] of [counts]. *)
Definition frame_of_counts (counts : list (string * nat)) : DataFrame :=
  {| columns := [];
     rows := concat (map (fun c => replicate (snd c) (ev 0 (fst c) "web" "new"))
                         counts) |}.

(** Scenarios A, B and C of the specification. *)
Definition scenario_A : DataFrame := frame_of_counts [("S1", 10%nat); ("S2", 4%nat)].
Definition scenario_B : DataFrame := frame_of_counts [("S1", 0%nat); ("S2", 5%nat)].
Definition scenario_C : DataFrame :=
  frame_of_counts [("S1", 10%nat); ("S2", 6%nat); ("S3", 9%nat)].

(** A row that also has its [mp_os] cell filled in. *)
Definition ev_os (d : Z) (name plat ut os : string) : Event :=
  {| event_date := d;
     event_name := Some name;
     platform := Some plat;
     user_type := Some ut;
     attrs := {[ "mp_os" := os ]} |}.

(** Six payments and nine subscriptions. *)
Definition nine_after_six : DataFrame :=
  frame_of_counts [("PAYMENT", 6%nat); ("BINGE-SUBSCRIPTION", 9%nat)].

(** Three days of events on two platforms. *)
Definition three_days : DataFrame :=
  {| columns := ["af_campaign"; "mp_os"];
     rows := [ ev_os 1 "PAYMENT" "android" "new" "Android";
               ev_os 2 "PAYMENT" "ios" "new" "iOS";
               ev_os 2 "BINGE-SUBSCRIPTION" "android" "returning" "Android";
               ev_os 3 "SUBSCRIBE-SUCCESS" "android" "new" "Android" ] |}.

(** The same rows in a sheet that has every column the charts read except
    [mp_os]. *)
Definition sheet_without_os : DataFrame :=
  {| columns := ["af_campaign"; "payment_method"; "payment_status";
                 "pack_name"; "pack_price"; "mp_brand"];
     rows := rows three_days |}.

(** The widgets as the page first shows them for [three_days]. *)
Definition first_load : Widgets :=
  {| start_date := 1;
     end_date := 3;
     platform_sel := "All";
     user_type_sel := "All";
     explorer_choice := 0;
     top_n := 20 |}.

(** The same page with both dates set to day 1. *)
Definition day_one : Widgets :=
  {| start_date := 1;
     end_date := 1;
     platform_sel := "All";
     user_type_sel := "All";
     explorer_choice := 0;
     top_n := 20 |}.

(** Events of one day with their campaign cell, where there is one. *)
Definition ev_campaign (name : string) (campaign : option string) : Event :=
  {| event_date := 1;
     event_name := Some name;
     platform := Some "android";
     user_type := Some "new";
     attrs := match campaign with
              | Some c => {[ "af_campaign" := c ]}
              | None => ∅
              end |}.

Definition campaign_sheet : DataFrame :=
  {| columns := ["af_campaign"; "mp_os"];
     rows := [ ev_campaign "BINGE-SUBSCRIPTION" (Some "summer");
               ev_campaign "PAYMENT" (Some "summer");
               ev_campaign "SUBSCRIBE-SUCCESS" (Some "winter");
               ev_campaign "SUBSCRIBE-SUCCESS" (Some "summer");
               ev_campaign "BINGE-SUBSCRIPTION" None ] |}.

(** A payment attempt and, where known, its outcome and the pack paid. *)
Definition ev_payment (method status pack price : option string) : Event :=
  let cell key v (m : gmap string string) :=
    match v with Some x => <[key := x]> m | None => m end in
  {| event_date := 1;
     event_name := Some "PAYMENT";
     platform := Some "android";
     user_type := Some "new";
     attrs := cell "payment_method" method
                (cell "payment_status" status
                   (cell "pack_name" pack (cell "pack_price" price ∅))) |}.

Definition payment_sheet : DataFrame :=
  {| columns := ["af_campaign"; "mp_os"; "payment_method"; "payment_status";
                 "pack_name"; "pack_price"];
     rows := [ ev_payment (Some "card") (Some "ok") (Some "gold") (Some "299");
               ev_payment (Some "upi") (Some "ok") (Some "gold") None;
               ev_payment (Some "card") (Some "ok") (Some "basic") None;
               ev_payment (Some "card") None None (Some "99");
               ev_payment (Some "card") (Some "failed") (Some "gold") (Some "299") ] |}.

(** * Proofs *)

(** ** The funnel flow builder *)

Section Sankey.
Variable steps : list string.
Variable df : DataFrame.

Lemma conv_percent_ok src_count tgt_count :
  conv_percent src_count tgt_count = Ok (percent_of src_count tgt_count).
Proof.
  unfold conv_percent, percent_of, int_truediv.
  destruct (src_count >? 0) eqn:Hpos; [|reflexivity].
  apply Z.gtb_lt in Hpos.
  destruct (src_count =? 0) eqn:Hz; [apply Z.eqb_eq in Hz; lia|reflexivity].
Qed.

Lemma adjacent_lookup i s t :
  steps !! i = Some s -> steps !! (i + 1)%nat = Some t ->
  adjacent steps !! i = Some (s, t).
Proof.
  intros Hs Ht. unfold adjacent.
  rewrite lookup_zip_with, Hs. simpl.
  rewrite lookup_tail. replace (S i) with (i + 1)%nat by lia.
  rewrite Ht. reflexivity.
Qed.

Lemma adjacent_lookup_inv i s t :
  adjacent steps !! i = Some (s, t) ->
  steps !! i = Some s /\ steps !! (i + 1)%nat = Some t.
Proof.
  unfold adjacent. rewrite lookup_zip_with, lookup_tail.
  replace (S i) with (i + 1)%nat by lia.
  destruct (steps !! i), (steps !! (i + 1)%nat); simpl; intros [=]; subst; auto.
Qed.

Lemma adjacent_length : length (adjacent steps) = (length steps - 1)%nat.
Proof.
  unfold adjacent. rewrite length_zip_with, length_tl. lia.
Qed.

Lemma sankey_body_ok acc i s t :
  steps !! i = Some s -> steps !! (i + 1)%nat = Some t ->
  sankey_body steps df acc i = Ok (acc ++ [edge_of df (s, t)]).
Proof.
  intros Hs Ht. unfold sankey_body, py_index. rewrite Hs, Ht. simpl.
  rewrite conv_percent_ok. reflexivity.
Qed.

(** The loop after its first [n] rounds. *)
Lemma sankey_loop_prefix n :
  (n <= length steps - 1)%nat ->
  fold_left (fun acc i => let* sankey_list := acc in
                          sankey_body steps df sankey_list i)
            (seq 0 n) (Ok [])
  = Ok (map (edge_of df) (take n (adjacent steps))).
Proof.
  induction n as [|n IH]; intros Hn; [reflexivity|].
  rewrite seq_S, fold_left_app, IH by lia. simpl.
  destruct (lookup_lt_is_Some_2 steps n) as [s Hs]; [lia|].
  destruct (lookup_lt_is_Some_2 steps (n + 1)) as [t Ht]; [lia|].
  rewrite (sankey_body_ok _ _ _ _ Hs Ht).
  rewrite (take_S_r _ _ _ (adjacent_lookup _ _ _ Hs Ht)).
  rewrite map_app. reflexivity.
Qed.

Lemma create_sankey_data_for_eq :
  create_sankey_data_for steps df = Ok (map (edge_of df) (adjacent steps)).
Proof.
  unfold create_sankey_data_for, py_range.
  replace (Z.to_nat (Z.of_nat (length steps) - 1))
    with (length steps - 1)%nat by lia.
  rewrite sankey_loop_prefix by lia.
  rewrite <- adjacent_length, firstn_all. reflexivity.
Qed.

Lemma sankey_edge_at i s t :
  steps !! i = Some s -> steps !! (i + 1)%nat = Some t ->
  exists edges,
    create_sankey_data_for steps df = Ok edges
    /\ edges !! i = Some (edge_of df (s, t)).
Proof.
  intros Hs Ht. eexists. split; [apply create_sankey_data_for_eq|].
  rewrite list_lookup_fmap, (adjacent_lookup _ _ _ Hs Ht). reflexivity.
Qed.

End Sankey.

(** Scenarios A, B and C of the specification, run. *)
Example scenario_A_edges :
  create_sankey_data_for ["S1"; "S2"] scenario_A
  = Ok [ {| source := "S1"; target := "S2"; value := 4;
            percent := PyFloat (PyFloat.of_int 40) |} ].
Proof. vm_compute. reflexivity. Qed.

Example scenario_B_edges :
  create_sankey_data_for ["S1"; "S2"] scenario_B
  = Ok [ {| source := "S1"; target := "S2"; value := 0;
            percent := PyInt 0 |} ].
Proof. vm_compute. reflexivity. Qed.

Example scenario_C_edges :
  create_sankey_data_for ["S1"; "S2"; "S3"] scenario_C
  = Ok [ {| source := "S1"; target := "S2"; value := 6;
            percent := PyFloat (PyFloat.of_int 60) |};
         {| source := "S2"; target := "S3"; value := 6;
            percent := PyFloat (PyFloat.of_int 150) |} ].
Proof. vm_compute. reflexivity. Qed.

(** C1: on every filtered frame and for every adjacent pair (steps[i],
    steps[i+1]) of the step list, the i-th edge built joins that pair and
    its volume is the minimum of the two row counts (the rows named
    steps[i] and the rows named steps[i+1]); so the volume exceeds neither
    count. *)
Theorem sankey_volume_is_min (filtered : DataFrame) (steps : list string)
    (i : nat) (s t : string) :
  steps !! i = Some s ->
  steps !! (i + 1)%nat = Some t ->
  let src_count :=
    Z.of_nat (length (filter (fun e => event_name e = Some s) (rows filtered))) in
  let tgt_count :=
    Z.of_nat (length (filter (fun e => event_name e = Some t) (rows filtered))) in
  exists edges edge,
    create_sankey_data_for steps filtered = Ok edges
    /\ edges !! i = Some edge
    /\ source edge = s /\ target edge = t
    /\ value edge = Z.min src_count tgt_count
    /\ value edge <= src_count /\ value edge <= tgt_count.
Proof.
  intros Hs Ht src_count tgt_count.
  destruct (sankey_edge_at steps filtered i s t Hs Ht) as (edges & Hrun & Hi).
  exists edges, (edge_of filtered (s, t)).
  repeat split; try assumption; simpl;
    fold (count_named filtered s); fold (count_named filtered t);
    unfold count_named, shape0, df_mask; simpl; subst src_count tgt_count; lia.
Qed.

Lemma sankey_volume_is_min_witness :
  exists edges edge,
    create_sankey_data_for ["S1"; "S2"; "S3"] scenario_C = Ok edges
    /\ edges !! 1%nat = Some edge
    /\ source edge = "S2" /\ target edge = "S3"
    /\ value edge = Z.min 6 9
    /\ value edge <= 6 /\ value edge <= 9.
Proof.
  apply (sankey_volume_is_min scenario_C ["S1"; "S2"; "S3"] 1 "S2" "S3");
    reflexivity.
Defined.

(** C5: for every step list and every filtered frame the builder returns,
    without raising, exactly [len(steps) - 1] edges; the i-th edge joins
    steps[i] to steps[i+1], so the edges follow the order of the steps; a
    list of fewer than two steps gives the empty list; with the script's own
    ten steps there are nine edges. *)
Theorem sankey_one_edge_per_adjacent_pair (filtered : DataFrame)
    (steps : list string) :
  exists edges,
    create_sankey_data_for steps filtered = Ok edges
    /\ Z.of_nat (length edges) = Z.max 0 (Z.of_nat (length steps) - 1)
    /\ (forall i edge, edges !! i = Some edge ->
          steps !! i = Some (source edge)
          /\ steps !! (i + 1)%nat = Some (target edge))
    /\ ((length steps < 2)%nat -> edges = [])
    /\ exists edges10,
         create_sankey_data filtered = Ok edges10 /\ length edges10 = 9%nat.
Proof.
  exists (map (edge_of filtered) (adjacent steps)).
  split; [apply create_sankey_data_for_eq|].
  split; [rewrite length_map, adjacent_length; lia|].
  split.
  - intros i edge. rewrite list_lookup_fmap.
    destruct (adjacent steps !! i) as [[s t]|] eqn:Hi; simpl; intros [=<-].
    simpl. apply adjacent_lookup_inv, Hi.
  - split.
    + intros Hlen. apply length_zero_iff_nil.
      rewrite length_map, adjacent_length. lia.
    + eexists. split; [apply create_sankey_data_for_eq|reflexivity].
Qed.

Lemma sankey_one_edge_per_adjacent_pair_witness :
  exists edges,
    create_sankey_data_for ["S1"] scenario_A = Ok edges
    /\ Z.of_nat (length edges) = Z.max 0 (Z.of_nat (length ["S1"]) - 1)
    /\ (forall i edge, edges !! i = Some edge ->
          ["S1"] !! i = Some (source edge)
          /\ ["S1"] !! (i + 1)%nat = Some (target edge))
    /\ ((length ["S1"] < 2)%nat -> edges = [])
    /\ exists edges10,
         create_sankey_data scenario_A = Ok edges10 /\ length edges10 = 9%nat.
Proof. exact (sankey_one_edge_per_adjacent_pair scenario_A ["S1"]). Defined.

(** C3: when no row of the filtered frame is named steps[i], the i-th edge
    carries the integer 0 as its percentage: the conditional returns 0
    before any division, so nothing is raised and the value is neither an
    infinity nor a NaN. *)
Theorem sankey_zero_source_percent (filtered : DataFrame)
    (steps : list string) (i : nat) (s t : string) :
  steps !! i = Some s ->
  steps !! (i + 1)%nat = Some t ->
  Z.of_nat (length (filter (fun e => event_name e = Some s) (rows filtered))) = 0 ->
  conv_percent (count_named filtered s) (count_named filtered t) = Ok (PyInt 0)
  /\ exists edges edge,
       create_sankey_data_for steps filtered = Ok edges
       /\ edges !! i = Some edge
       /\ percent edge = PyInt 0
       /\ PyFloat.is_nan (as_float (percent edge)) = false
       /\ PyFloat.is_infinity (as_float (percent edge)) = false.
Proof.
  intros Hs Ht Hzero.
  assert (Hc : count_named filtered s = 0) by exact Hzero.
  split.
  - rewrite conv_percent_ok. unfold percent_of. rewrite Hc. reflexivity.
  - destruct (sankey_edge_at steps filtered i s t Hs Ht) as (edges & Hrun & Hi).
    exists edges, (edge_of filtered (s, t)).
    assert (Hp : percent (edge_of filtered (s, t)) = PyInt 0)
      by (simpl; unfold percent_of; rewrite Hc; reflexivity).
    rewrite Hp. repeat split; assumption.
Qed.

Lemma sankey_zero_source_percent_witness :
  conv_percent (count_named scenario_B "S1") (count_named scenario_B "S2")
    = Ok (PyInt 0)
  /\ exists edges edge,
       create_sankey_data_for ["S1"; "S2"] scenario_B = Ok edges
       /\ edges !! 0%nat = Some edge
       /\ percent edge = PyInt 0
       /\ PyFloat.is_nan (as_float (percent edge)) = false
       /\ PyFloat.is_infinity (as_float (percent edge)) = false.
Proof.
  apply (sankey_zero_source_percent scenario_B ["S1"; "S2"] 0 "S1" "S2");
    reflexivity.
Defined.

(** ** The filter engine *)

Lemma filtered_df_columns df sd ed p u :
  columns (filtered_df df sd ed p u) = columns df.
Proof. unfold filtered_df. repeat case_decide; reflexivity. Qed.

Lemma filtered_df_rows df sd ed p u :
  rows (filtered_df df sd ed p u) = filter (passes sd ed p u) (rows df).
Proof.
  unfold filtered_df, df_mask. repeat case_decide; simpl;
    rewrite ?list_filter_filter; apply list_filter_iff; intros e;
    unfold passes; intuition (try lia; try congruence).
Qed.

(** C4: the filter block keeps exactly the rows whose date lies in
    [start_date, end_date] and that agree with each select box not left on
    "All"; the result is the input with the other rows removed, in the
    input's order; with start_date after end_date nothing is kept. *)
Theorem filter_engine_keeps_matching_rows (events : DataFrame)
    (start_date end_date : Z) (platform_sel user_type_sel : string) :
  let kept := rows (filtered_df events start_date end_date
                                platform_sel user_type_sel) in
  (forall e, e ∈ kept <->
     e ∈ rows events
     /\ (start_date <= event_date e /\ event_date e <= end_date)
     /\ (platform_sel = "All" \/ platform e = Some platform_sel)
     /\ (user_type_sel = "All" \/ user_type e = Some user_type_sel))
  /\ kept = filter (passes start_date end_date platform_sel user_type_sel)
                   (rows events)
  /\ kept `sublist_of` rows events
  /\ (start_date > end_date -> kept = []).
Proof.
  intros kept. subst kept. rewrite filtered_df_rows.
  split; [|split; [reflexivity|split]].
  - intros e. rewrite list_elem_of_filter. unfold passes, All. tauto.
  - apply sublist_filter.
  - intros Hgt. induction (rows events) as [|e l IH]; [reflexivity|].
    rewrite filter_cons. case_decide as Hp; [|exact IH].
    unfold passes in Hp. lia.
Qed.

Lemma filter_engine_keeps_matching_rows_witness :
  let kept := rows (filtered_df three_days 3 1 "All" "All") in
  (forall e, e ∈ kept <->
     e ∈ rows three_days
     /\ (3 <= event_date e /\ event_date e <= 1)
     /\ ("All" = "All" \/ platform e = Some "All")
     /\ ("All" = "All" \/ user_type e = Some "All"))
  /\ kept = filter (passes 3 1 "All" "All") (rows three_days)
  /\ kept `sublist_of` rows three_days
  /\ (3 > 1 -> kept = []).
Proof. exact (filter_engine_keeps_matching_rows three_days 3 1 "All" "All"). Defined.

(** C10: filtering a filtered frame again with the same dates and the same
    select-box values gives the same frame. *)
Theorem filter_engine_idempotent (events : DataFrame)
    (start_date end_date : Z) (platform_sel user_type_sel : string) :
  filtered_df (filtered_df events start_date end_date platform_sel user_type_sel)
              start_date end_date platform_sel user_type_sel
  = filtered_df events start_date end_date platform_sel user_type_sel.
Proof.
  pose proof (filtered_df_rows
                (filtered_df events start_date end_date platform_sel user_type_sel)
                start_date end_date platform_sel user_type_sel) as Hr.
  pose proof (filtered_df_columns
                (filtered_df events start_date end_date platform_sel user_type_sel)
                start_date end_date platform_sel user_type_sel) as Hc.
  rewrite (filtered_df_rows events) in Hr.
  rewrite list_filter_filter_l in Hr by auto.
  rewrite <- (filtered_df_rows events) in Hr.
  destruct (filtered_df (filtered_df _ _ _ _ _) _ _ _ _) as [c1 r1].
  destruct (filtered_df events _ _ _ _) as [c2 r2].
  simpl in *. congruence.
Qed.

(** ** The aggregations *)

Lemma uniques_elem cells : forall seen s,
  s ∈ uniques seen cells <-> Some s ∈ cells /\ s ∉ seen.
Proof.
  induction cells as [|[c|] cells IH]; intros seen s; simpl.
  - rewrite !elem_of_nil. tauto.
  - case_decide as Hc.
    + rewrite IH, elem_of_cons. split.
      * intros [? ?]. auto.
      * intros [[[=->]| ?] ?]; [contradiction|auto].
    + rewrite !elem_of_cons, IH, elem_of_cons. split.
      * intros [->|[? Hn]]; [auto|]. split; [auto|]. intros ?. apply Hn. auto.
      * intros [[[=->]| ?] ?]; [auto|].
        destruct (decide (s = c)) as [->|Hne]; [auto|]. right. split; [auto|].
        intros [?|?]; auto.
  - rewrite IH, elem_of_cons. split.
    + intros [? ?]. auto.
    + intros [[[=]| ?] ?]. auto.
Qed.

Lemma insert_by_elem {A} (before : A -> A -> bool) x l y :
  y ∈ insert_by before x l <-> y = x \/ y ∈ l.
Proof.
  induction l as [|z l IH]; simpl.
  - rewrite list_elem_of_singleton, elem_of_nil. tauto.
  - destruct (before x z); rewrite !elem_of_cons; [tauto|].
    rewrite IH. tauto.
Qed.

Lemma sort_by_elem {A} (before : A -> A -> bool) l y :
  y ∈ sort_by before l <-> y ∈ l.
Proof.
  induction l as [|x l IH]; simpl; [reflexivity|].
  rewrite insert_by_elem, IH, elem_of_cons. tauto.
Qed.

Lemma series_get_absent (sr : list (string * Z)) label :
  (forall c, (label, c) ∉ sr) -> series_get sr label = None.
Proof.
  intros Habs. unfold series_get.
  destruct (list_find _ sr) as [[i [l c]]|] eqn:Hf; [|reflexivity].
  apply list_find_Some in Hf as (Hi & Hl & _). simpl in Hl. subst l.
  exfalso. apply (Habs c). eapply list_elem_of_lookup_2, Hi.
Qed.

Lemma value_counts_absent cells label :
  Some label ∉ cells -> series_get (value_counts cells) label = None.
Proof.
  intros Habs. apply series_get_absent. intros c Hin.
  unfold value_counts in Hin. rewrite sort_by_elem, list_elem_of_fmap in Hin.
  destruct Hin as (s & [= -> _] & Hs). apply uniques_elem in Hs. tauto.
Qed.

Lemma reindex_labels sr labels : map fst (reindex sr labels) = labels.
Proof.
  unfold reindex. case_decide; rewrite map_map; simpl; apply map_id.
Qed.

Lemma reindex_absent sr labels i label :
  labels !! i = Some label ->
  series_get sr label = None ->
  reindex sr labels !! i = Some (label, PyFloat S754_nan).
Proof.
  intros Hi Hnone. unfold reindex. case_decide as Hall.
  - rewrite Forall_lookup in Hall. specialize (Hall i label Hi).
    rewrite Hnone in Hall. destruct Hall as [? [=]].
  - rewrite list_lookup_fmap, Hi. simpl. rewrite Hnone. reflexivity.
Qed.

(** C8: the funnel bar table has one row per funnel step, in the fixed
    order of the ten steps; but a step that no filtered row is named after
    gets the count NaN there, not 0: [reindex] is called without a fill
    value. *)
Theorem funnel_counts_absent_step_is_nan (filtered : DataFrame)
    (i : nat) (step : string) :
  funnel_steps !! i = Some step ->
  Z.of_nat (length (filter (fun e => event_name e = Some step)
                           (rows filtered))) = 0 ->
  map fst (funnel_counts filtered) = funnel_steps
  /\ funnel_counts filtered !! i = Some (step, PyFloat S754_nan)
  /\ funnel_counts filtered !! i <> Some (step, PyInt 0).
Proof.
  intros Hi Hzero. unfold funnel_counts.
  split; [apply reindex_labels|].
  assert (Hnan : forall sr, series_get sr step = None ->
            reindex sr funnel_steps !! i = Some (step, PyFloat S754_nan))
    by (intros sr; apply reindex_absent, Hi).
  rewrite Hnan; [split; [reflexivity|discriminate]|].
  apply value_counts_absent. intros Hin.
  apply list_elem_of_fmap in Hin as (e & Hname & He).
  apply list_elem_of_filter in He as [_ He].
  assert (Hf : e ∈ filter (fun e => event_name e = Some step) (rows filtered))
    by (apply list_elem_of_filter; auto).
  destruct (filter _ (rows filtered)); [inversion Hf|simpl in Hzero; lia].
Qed.

Lemma funnel_counts_absent_step_is_nan_witness :
  map fst (funnel_counts (filtered_df three_days 1 3 "All" "All")) = funnel_steps
  /\ funnel_counts (filtered_df three_days 1 3 "All" "All") !! 6%nat
     = Some ("PAYMENT-INITIATE", PyFloat S754_nan)
  /\ funnel_counts (filtered_df three_days 1 3 "All" "All") !! 6%nat
     <> Some ("PAYMENT-INITIATE", PyInt 0).
Proof.
  apply (funnel_counts_absent_step_is_nan
           (filtered_df three_days 1 3 "All" "All") 6 "PAYMENT-INITIATE");
    reflexivity.
Defined.

(** ** The charts of one run *)

Lemma explorer_section_same (df_copy : DataFrame) (w w' : Widgets) :
  explorer_choice w = explorer_choice w' ->
  top_n w = top_n w' ->
  last (sections df_copy w) = last (sections df_copy w').
Proof. intros Hc Hn. unfold sections. simpl. rewrite Hc, Hn. reflexivity. Qed.

(** C7: the explorer table is counted on the whole sheet.  With both dates
    set to day 1 only one row of [three_days] is left, and the device chart
    shows that one row; the explorer chart of the same column still counts
    all four rows, where counting the filtered rows would give one. *)
Theorem explorer_counts_unfiltered_rows :
  let fdf := filtered_df three_days 1 1 "All" "All" in
  let selected_col := selectbox (columns_to_visualize three_days) 0 in
  selected_col = Some "mp_os"
  /\ shape0 fdf = 1
  /\ device_summary fdf = Ok [("Android", 1)]
  /\ col_counts fdf selected_col 20 = Ok [("Android", 1)]
  /\ col_counts three_days selected_col 20 = Ok [("Android", 3); ("iOS", 1)]
  /\ last (fst (dashboard three_days day_one))
     = Some (DistributionBar "mp_os" [("Android", 3); ("iOS", 1)])
  /\ last (fst (dashboard three_days day_one))
     = last (fst (dashboard three_days first_load)).
Proof. vm_compute. repeat split; reflexivity. Qed.

Lemma getcol_ok df label :
  label ∈ columns df ->
  getcol df label = Ok (map (fun e => attrs e !! label) (rows df)).
Proof. intros Hin. unfold getcol. case_decide; [reflexivity|contradiction]. Qed.

Lemma getcol_raise df label :
  label ∉ columns df -> getcol df label = Raise (KeyError (Some label)).
Proof. intros Hin. unfold getcol. case_decide; [contradiction|reflexivity]. Qed.

Lemma plot_vertical_sankey_ok df :
  exists c, plot_vertical_sankey df = Ok c /\ chart_name c = "sankey".
Proof.
  unfold plot_vertical_sankey, create_sankey_data.
  rewrite create_sankey_data_for_eq. eexists. split; reflexivity.
Qed.

Lemma selectbox_some options choice :
  options <> [] ->
  exists c, selectbox options choice = Some c /\ c ∈ options.
Proof.
  intros Hne. unfold selectbox.
  destruct (options !! choice) as [c|] eqn:Hc.
  - exists c. split; [reflexivity|]. eapply list_elem_of_lookup_2, Hc.
  - destruct options as [|c rest]; [contradiction|].
    exists c. split; [reflexivity|]. apply elem_of_cons. auto.
Qed.

Lemma col_counts_ok df_copy choice n :
  "mp_os" ∈ columns df_copy ->
  exists c t,
    selectbox (columns_to_visualize df_copy) choice = Some c
    /\ col_counts df_copy (Some c) n = Ok t.
Proof.
  intros Hos.
  destruct (selectbox_some (columns_to_visualize df_copy) choice) as (c & Hc & Hin).
  - intros Hnil.
    assert (Hmem : "mp_os" ∈ columns_to_visualize df_copy).
    { unfold columns_to_visualize. apply list_elem_of_filter.
      split; [exact Hos|]. do 7 (apply elem_of_cons; right).
      apply elem_of_cons. left. reflexivity. }
    rewrite Hnil in Hmem. inversion Hmem.
  - exists c. unfold columns_to_visualize in Hin.
    apply list_elem_of_filter in Hin as [Hin _].
    eexists. split; [exact Hc|]. simpl. rewrite getcol_ok by exact Hin.
    reflexivity.
Qed.

Lemma script_with_rows df_copy w :
  rows df_copy <> [] -> script df_copy w = dashboard df_copy w.
Proof.
  intros Hne. unfold script.
  destruct (rows df_copy); [contradiction|reflexivity].
Qed.

Lemma script_without_rows df_copy w :
  rows df_copy = [] -> script df_copy w = ([], Some StreamlitAPIException).
Proof. intros Hnil. unfold script. rewrite Hnil. reflexivity. Qed.

(** C9: the script does not do what the claim says for the device chart.
    Its siblings look for their columns first: the payment chart and the
    pack chart are skipped, without an error, when their column is not
    there, and the explorer's list leaves absent columns out, [mp_os]
    among them.  The device chart reads [mp_os] unchecked: on every sheet
    with rows and an [af_campaign] column but without [mp_os], whatever the
    widgets, the run ends in [KeyError] at the device chart, after four
    charts; the payment, pack and explorer charts are never plotted, even
    when their columns are all there. *)
Theorem device_chart_reads_mp_os_unchecked (df_copy : DataFrame) (w : Widgets) :
  rows df_copy <> [] ->
  "af_campaign" ∈ columns df_copy ->
  "mp_os" ∉ columns df_copy ->
  snd (script df_copy w) = Some (KeyError (Some "mp_os"))
  /\ map chart_name (fst (script df_copy w))
     = ["funnel"; "sankey"; "daily"; "campaign"]
  /\ ("mp_os" ∉ columns_to_visualize df_copy)
  /\ (forall f, "payment_method" ∉ columns f -> payment_summary f = Ok None)
  /\ (forall f, "pack_name" ∉ columns f -> pack_summary f = Ok None).
Proof.
  intros Hrows Hcamp Hos. rewrite script_with_rows by exact Hrows.
  unfold dashboard, sections.
  set (fdf := filtered_df df_copy _ _ _ _).
  assert (Hcols : columns fdf = columns df_copy) by apply filtered_df_columns.
  destruct (plot_vertical_sankey_ok fdf) as (sk & -> & Hsk).
  unfold campaign_summary, device_summary.
  rewrite getcol_ok by (simpl; rewrite Hcols; assumption).
  rewrite getcol_raise by (rewrite Hcols; assumption).
  simpl. rewrite Hsk.
  split; [reflexivity|]. split; [reflexivity|]. split; [|split].
  - unfold columns_to_visualize. rewrite list_elem_of_filter. tauto.
  - intros f Hf. unfold payment_summary. rewrite decide_False by tauto.
    reflexivity.
  - intros f Hf. unfold pack_summary. rewrite decide_False by exact Hf.
    reflexivity.
Qed.

Lemma device_chart_reads_mp_os_unchecked_witness :
  snd (script sheet_without_os first_load) = Some (KeyError (Some "mp_os"))
  /\ map chart_name (fst (script sheet_without_os first_load))
     = ["funnel"; "sankey"; "daily"; "campaign"]
  /\ ("mp_os" ∉ columns_to_visualize sheet_without_os)
  /\ (forall f, "payment_method" ∉ columns f -> payment_summary f = Ok None)
  /\ (forall f, "pack_name" ∉ columns f -> pack_summary f = Ok None).
Proof.
  apply (device_chart_reads_mp_os_unchecked sheet_without_os first_load).
  - discriminate.
  - apply elem_of_cons. left. reflexivity.
  - intros Hin. repeat (apply elem_of_cons in Hin as [[=]|Hin]). inversion Hin.
Defined.

(** ** Rounding in binary64 *)

(** One right shift halves the unit the record counts in. *)
Lemma shr_1_locates mrs N D :
  0 < D -> locates mrs N D -> locates (shr_1 mrs) N (2 * D).
Proof.
  intros HD. destruct mrs as [m r s]. unfold locates. cbn [shr_m shr_r shr_s].
  intros (Hm & Hb & Hl).
  destruct m as [|[p|p|]|p]; [| | | |lia];
    destruct r, s; cbn [shr_1 orb shr_m shr_r shr_s] in *;
    rewrite ?(Pos2Z.inj_xI p), ?(Pos2Z.inj_xO p) in *;
    try (set (P := Z.pos p) in *; assert (0 < P) by (subst P; lia); clearbody P);
    repeat split; lia.
Qed.

Lemma iter_pos_shr_1_locates p : forall mrs N D,
  0 < D -> locates mrs N D ->
  locates (SpecFloat.iter_pos shr_1 p mrs) N (2 ^ Z.pos p * D).
Proof.
  induction p as [p IH|p IH|]; intros mrs N D HD Hl; cbn [SpecFloat.iter_pos].
  - rewrite (Pos2Z.inj_xI p).
    replace (2 ^ (2 * Z.pos p + 1) * D)
      with (2 ^ Z.pos p * (2 ^ Z.pos p * (2 * D))).
    + pose proof (Z.pow_pos_nonneg 2 (Z.pos p)).
      apply IH; [lia|apply IH; [lia|apply shr_1_locates; assumption]].
    + replace (2 * Z.pos p + 1) with (Z.pos p + Z.pos p + 1) by lia.
      rewrite !Z.pow_add_r by lia. change (2 ^ 1) with 2. ring.
  - rewrite (Pos2Z.inj_xO p).
    replace (2 ^ (2 * Z.pos p) * D) with (2 ^ Z.pos p * (2 ^ Z.pos p * D)).
    + pose proof (Z.pow_pos_nonneg 2 (Z.pos p)).
      apply IH; [lia|apply IH; assumption].
    + replace (2 * Z.pos p) with (Z.pos p + Z.pos p) by lia.
      rewrite Z.pow_add_r by lia. ring.
  - change (2 ^ 1) with 2. apply shr_1_locates; assumption.
Qed.

Lemma shr_locates mrs e n N D :
  0 < D -> 0 <= n -> locates mrs N D ->
  locates (fst (shr mrs e n)) N (2 ^ n * D) /\ snd (shr mrs e n) = e + n.
Proof.
  intros HD Hn Hl. destruct n as [|p|p]; [| |lia]; cbn [shr fst snd].
  - change (2 ^ 0) with 1. rewrite Z.mul_1_l, Z.add_0_r. auto.
  - split; [apply iter_pos_shr_1_locates; assumption|reflexivity].
Qed.

(** Rounding to nearest moves by at most half a unit. *)
Lemma round_nearest_even_near mrs N D :
  0 < D -> locates mrs N D ->
  let m := round_nearest_even (shr_m mrs) (loc_of_shr_record mrs) in
  (m = shr_m mrs \/ m = shr_m mrs + 1)
  /\ 2 * m * D - D <= 2 * N <= 2 * m * D + D.
Proof.
  intros HD. destruct mrs as [m r s]. unfold locates. cbn [shr_m shr_r shr_s].
  intros (Hm & Hb & Hl).
  destruct r, s; cbn [loc_of_shr_record round_nearest_even];
    try destruct (Z.even m); split; try lia; auto.
Qed.

(** [digits2_pos] is the bit length. *)
Lemma digits2_pos_bounds p :
  2 ^ (Z.pos (digits2_pos p) - 1) <= Z.pos p < 2 ^ Z.pos (digits2_pos p).
Proof.
  induction p as [p IH|p IH|]; cbn [digits2_pos];
    rewrite ?Pos2Z.inj_succ, ?(Pos2Z.inj_xI p), ?(Pos2Z.inj_xO p).
  - replace (Z.succ (Z.pos (digits2_pos p)) - 1)
      with (Z.pos (digits2_pos p) - 1 + 1) by lia.
    rewrite Z.pow_succ_r, Z.pow_add_r by lia. change (2 ^ 1) with 2. lia.
  - replace (Z.succ (Z.pos (digits2_pos p)) - 1)
      with (Z.pos (digits2_pos p) - 1 + 1) by lia.
    rewrite Z.pow_succ_r, Z.pow_add_r by lia. change (2 ^ 1) with 2. lia.
  - change (2 ^ (1 - 1)) with 1. change (2 ^ 1) with 2. lia.
Qed.

Lemma Zdigits2_unique m d :
  2 ^ (d - 1) <= m < 2 ^ d -> 0 < d -> Zdigits2 m = d.
Proof.
  intros Hm Hd.
  assert (0 < m) by (pose proof (Z.pow_pos_nonneg 2 (d - 1)); lia).
  destruct m as [|p|p]; try lia. cbn [Zdigits2].
  pose proof (digits2_pos_bounds p) as Hp.
  set (d' := Z.pos (digits2_pos p)) in *.
  assert (0 < d') by (subst d'; lia). clearbody d'.
  destruct (Z.lt_trichotomy d' d) as [Hlt|[Heq|Hgt]]; [|assumption|].
  - assert (2 ^ d' <= 2 ^ (d - 1)) by (apply Z.pow_le_mono_r; lia). lia.
  - assert (2 ^ d <= 2 ^ (d' - 1)) by (apply Z.pow_le_mono_r; lia). lia.
Qed.

Lemma fexp_normal e : -1021 <= e -> fexp PyFloat.prec PyFloat.emax e = e - 53.
Proof. intros He. unfold fexp, emin, PyFloat.prec, PyFloat.emax. lia. Qed.

Lemma shr_m_of_loc m l : shr_m (shr_record_of_loc m l) = m.
Proof. destruct l as [|[]]; reflexivity. Qed.

(** Rounding a located fraction whose integer part has at least 53 bits, away
    from the subnormal and the overflow range: the result is a normal float
    within half a unit of the fraction, possibly after a carry into the next
    binade. *)
Lemma binary_round_aux_normal mx ex lx N D :
  0 < D ->
  locates (shr_record_of_loc mx lx) N D ->
  53 <= Zdigits2 mx ->
  -1074 <= ex + Zdigits2 mx - 53 <= 970 ->
  exists m_f m_r,
    (2 * m_r - 1) * (2 ^ (Zdigits2 mx - 53) * D) <= 2 * N
       <= (2 * m_r + 1) * (2 ^ (Zdigits2 mx - 53) * D)
    /\ 2 ^ 52 <= Z.pos m_f < 2 ^ 53
    /\ (binary_round_aux PyFloat.prec PyFloat.emax false mx ex lx
          = S754_finite false m_f (ex + Zdigits2 mx - 53)
        /\ Z.pos m_f = m_r
        \/
        binary_round_aux PyFloat.prec PyFloat.emax false mx ex lx
          = S754_finite false m_f (ex + Zdigits2 mx - 52)
        /\ m_r = 2 ^ 53 /\ Z.pos m_f = 2 ^ 52).
Proof.
  intros HD Hloc Hd He.
  assert (Hmx : 2 ^ (Zdigits2 mx - 1) <= mx < 2 ^ Zdigits2 mx).
  { destruct Hloc as (Hm & _). rewrite shr_m_of_loc in Hm.
    destruct mx as [|p|p]; [simpl in Hd; lia| |lia].
    apply digits2_pos_bounds. }
  assert (HmxN : mx * D <= N < (mx + 1) * D).
  { destruct Hloc as (_ & Hb & _). rewrite shr_m_of_loc in Hb. exact Hb. }
  set (d := Zdigits2 mx) in *.
  unfold binary_round_aux, shr_fexp. fold d.
  rewrite fexp_normal by lia.
  replace (d + ex - 53 - ex) with (d - 53) by lia.
  destruct (shr_locates (shr_record_of_loc mx lx) ex (d - 53) N D HD)
    as [Hloc1 He1]; [lia|exact Hloc|].
  destruct (shr (shr_record_of_loc mx lx) ex (d - 53)) as [mrs1 e1].
  cbn [fst snd] in Hloc1, He1. subst e1.
  set (K := 2 ^ (d - 53)) in *.
  assert (HK : 0 < K) by (apply Z.pow_pos_nonneg; lia).
  assert (HK1 : 2 ^ (d - 1) = 2 ^ 52 * K).
  { subst K. rewrite <- Z.pow_add_r by lia. f_equal. lia. }
  assert (HK2 : 2 ^ d = 2 ^ 53 * K).
  { subst K. rewrite <- Z.pow_add_r by lia. f_equal. lia. }
  rewrite HK1, HK2 in Hmx. clearbody K.
  assert (HKD : 0 < K * D) by lia.
  destruct (round_nearest_even_near mrs1 N (K * D) HKD Hloc1) as [Hstep Hnear].
  set (m_r := round_nearest_even (shr_m mrs1) (loc_of_shr_record mrs1)) in *.
  destruct Hloc1 as (Hm1 & Hb1 & _).
  set (m1 := shr_m mrs1) in *.
  assert (Hm1b : 2 ^ 52 <= m1 < 2 ^ 53).
  { change (2 ^ 52) with 4503599627370496 in *.
    change (2 ^ 53) with 9007199254740992 in *.
    split.
    - destruct (Z_lt_le_dec m1 4503599627370496) as [Hlt|]; [|assumption].
      exfalso.
      assert ((m1 + 1) * (K * D) <= 4503599627370496 * K * D).
      { rewrite <- Z.mul_assoc. apply Z.mul_le_mono_nonneg_r; lia. }
      assert (4503599627370496 * K * D <= mx * D).
      { apply Z.mul_le_mono_nonneg_r; lia. }
      lia.
    - destruct (Z_lt_le_dec m1 9007199254740992) as [|Hge]; [assumption|].
      exfalso.
      assert (9007199254740992 * K * D <= m1 * (K * D)).
      { rewrite <- Z.mul_assoc. apply Z.mul_le_mono_nonneg_r; lia. }
      assert ((mx + 1) * D <= 9007199254740992 * K * D).
      { apply Z.mul_le_mono_nonneg_r; lia. }
      lia. }
  assert (Hmr : 2 ^ 52 <= m_r <= 2 ^ 53) by lia.
  clearbody m_r. clear Hstep.
  destruct (Z_lt_le_dec m_r (2 ^ 53)) as [Hlt|Hge].
  - assert (Hdig : Zdigits2 m_r = 53) by (apply Zdigits2_unique; simpl; lia).
    rewrite Hdig, fexp_normal by lia.
    replace (53 + (ex + (d - 53)) - 53 - (ex + (d - 53))) with 0 by lia.
    cbn [shr shr_record_of_loc shr_m].
    destruct m_r as [|p|p]; try lia.
    replace (ex + (d - 53) <=? PyFloat.emax - PyFloat.prec) with true
      by (symmetry; apply Z.leb_le; unfold PyFloat.emax, PyFloat.prec; lia).
    exists p, (Z.pos p). split; [lia|]. split; [lia|]. left.
    split; [f_equal; lia|reflexivity].
  - assert (m_r = 2 ^ 53) by lia. subst m_r.
    change (Zdigits2 (2 ^ 53)) with 54.
    rewrite fexp_normal by lia.
    replace (54 + (ex + (d - 53)) - 53 - (ex + (d - 53))) with 1 by lia.
    cbn.
    replace (ex + (d - 53) + 1 <=? PyFloat.emax - PyFloat.prec) with true
      by (symmetry; apply Z.leb_le; unfold PyFloat.emax, PyFloat.prec; lia).
    eexists _, (2 ^ 53). split; [lia|]. split; [|right; split; [f_equal; lia|split; reflexivity]].
    simpl. lia.
Qed.

Lemma pos_iter_xO p d : Z.pos (Pos.iter xO p d) = Z.pos p * 2 ^ Z.pos d.
Proof.
  induction d as [|d IH] using Pos.peano_ind.
  - cbn [Pos.iter]. rewrite (Pos2Z.inj_xO p). change (2 ^ 1) with 2. lia.
  - rewrite Pos.iter_succ, (Pos2Z.inj_xO (Pos.iter xO p d)), IH.
    rewrite Pos2Z.inj_succ, Z.pow_succ_r by lia. ring.
Qed.

Lemma shl_align_spec p e e' :
  e' <= e ->
  snd (shl_align p e e') = e'
  /\ Z.pos (fst (shl_align p e e')) = Z.pos p * 2 ^ (e - e').
Proof.
  intros Hle. unfold shl_align.
  destruct (e' - e) as [|d|d] eqn:Hd; cbn [fst snd]; [| lia |].
  - replace (e - e') with 0 by lia. split; lia.
  - rewrite pos_iter_xO. replace (e - e') with (Z.pos d) by lia. auto.
Qed.

Lemma locates_exact m : 0 <= m -> locates (shr_record_of_loc m loc_Exact) m 1.
Proof. intros Hm. unfold locates. simpl. lia. Qed.

(** An int below 2^53 converts exactly, to a 53-bit mantissa. *)
Lemma of_int_normal n :
  0 < n < 2 ^ 53 ->
  exists m e,
    PyFloat.of_int n = S754_finite false m e
    /\ 2 ^ 52 <= Z.pos m < 2 ^ 53
    /\ -52 <= e <= 0
    /\ Z.pos m = n * 2 ^ (- e).
Proof.
  intros Hn. destruct n as [|p|p]; try lia.
  unfold PyFloat.of_int, binary_normalize, binary_round.
  pose proof (digits2_pos_bounds p) as Hp.
  set (d := Z.pos (digits2_pos p)) in *.
  assert (Hd : 1 <= d <= 53).
  { split; [subst d; lia|].
    destruct (Z_lt_le_dec 53 d) as [Hgt|]; [|assumption].
    assert (2 ^ 53 <= 2 ^ (d - 1)) by (apply Z.pow_le_mono_r; lia). lia. }
  replace (d + 0) with d by lia. rewrite fexp_normal by lia.
  destruct (shl_align_spec p 0 (d - 53)) as [Hez Hmz]; [lia|].
  destruct (shl_align p 0 (d - 53)) as [mz ez]. cbn [fst snd] in Hez, Hmz.
  subst ez. replace (0 - (d - 53)) with (53 - d) in Hmz by lia.
  assert (Hpow : 2 ^ (53 - d) * 2 ^ (d - 1) = 2 ^ 52).
  { rewrite <- Z.pow_add_r by lia. f_equal. lia. }
  assert (Hpow' : 2 ^ (53 - d) * 2 ^ d = 2 ^ 53).
  { rewrite <- Z.pow_add_r by lia. f_equal. lia. }
  assert (HK : 0 < 2 ^ (53 - d)) by (apply Z.pow_pos_nonneg; lia).
  assert (Hmzb : 2 ^ 52 <= Z.pos mz < 2 ^ 53).
  { rewrite Hmz, <- Hpow, <- Hpow'. split.
    - rewrite (Z.mul_comm (Z.pos p)). apply Z.mul_le_mono_nonneg_l; lia.
    - rewrite (Z.mul_comm (Z.pos p)). apply Z.mul_lt_mono_pos_l; lia. }
  assert (Hdig : Zdigits2 (Z.pos mz) = 53)
    by (apply Zdigits2_unique; simpl; lia).
  destruct (binary_round_aux_normal (Z.pos mz) (d - 53) loc_Exact (Z.pos mz) 1)
    as (m_f & m_r & Hnear & Hmf & Hcase);
    [lia|apply locates_exact; lia|lia|lia|].
  rewrite Hdig in Hnear, Hcase. change (2 ^ (53 - 53)) with 1 in Hnear.
  destruct Hcase as [[Hr Heq]|[Hr [Heq _]]]; [|lia].
  exists m_f, (d - 53). rewrite Hr.
  split; [f_equal; lia|]. split; [assumption|]. split; [lia|].
  replace (- (d - 53)) with (53 - d) by lia. lia.
Qed.

(** The location computed from a remainder. *)
Lemma new_location_locates q r m2 :
  0 <= q -> 0 <= r < m2 ->
  locates (shr_record_of_loc q (new_location m2 r)) (m2 * q + r) m2.
Proof.
  intros Hq Hr. unfold new_location, new_location_even, new_location_odd.
  destruct (Z.even m2) eqn:Hev.
  - destruct (Z.eqb_spec r 0) as [->|Hne].
    + unfold locates. simpl. lia.
    + destruct (Z.compare_spec (2 * r) m2); unfold locates; simpl; lia.
  - destruct (Z.eqb_spec r 0) as [->|Hne].
    + unfold locates. simpl. lia.
    + assert (Hodd : Z.odd m2 = true) by (rewrite <- Z.negb_even, Hev; reflexivity).
      apply Z.odd_spec in Hodd as [k Hk].
      destruct (Z.compare_spec (2 * r + 1) m2); unfold locates; simpl; lia.
Qed.

(** The quotient of two normal floats, against 1.0. *)
Lemma div_normal mx ex my ey :
  2 ^ 52 <= Z.pos mx < 2 ^ 53 ->
  2 ^ 52 <= Z.pos my < 2 ^ 53 ->
  -52 <= ex <= 0 -> -52 <= ey <= 0 ->
  exists m e,
    SFdiv PyFloat.prec PyFloat.emax (S754_finite false mx ex) (S754_finite false my ey)
      = S754_finite false m e
    /\ 2 ^ 52 <= Z.pos m < 2 ^ 53
    /\ -106 <= e <= 1
    /\ (ex < ey \/ ex = ey /\ Z.pos mx <= Z.pos my ->
        e < -52 \/ e = -52 /\ Z.pos m = 2 ^ 52)
    /\ (ey < ex \/ ex = ey /\ Z.pos my < Z.pos mx ->
        -52 < e \/ e = -52 /\ 2 ^ 52 < Z.pos m).
Proof.
  intros Hmx Hmy Hex Hey.
  unfold SFdiv, SFdiv_core_binary. cbn [xorb].
  assert (Hdx : Zdigits2 (Z.pos mx) = 53) by (apply Zdigits2_unique; simpl; lia).
  assert (Hdy : Zdigits2 (Z.pos my) = 53) by (apply Zdigits2_unique; simpl; lia).
  rewrite Hdx, Hdy.
  replace (53 + ex - (53 + ey)) with (ex - ey) by lia.
  rewrite fexp_normal by lia.
  replace (Z.min (ex - ey - 53) (ex - ey)) with (ex - ey - 53) by lia.
  replace (ex - ey - (ex - ey - 53)) with 53 by lia.
  rewrite Z.shiftl_mul_pow2 by lia.
  change (2 ^ 53) with 9007199254740992 in *.
  change (2 ^ 52) with 4503599627370496 in *.
  pose proof (Z_div_mod (Z.pos mx * 9007199254740992) (Z.pos my)) as Hdm.
  destruct (Z.div_eucl (Z.pos mx * 9007199254740992) (Z.pos my)) as [q r].
  destruct Hdm as [Hqr Hr]; [lia|].
  set (X := Z.pos mx) in *. set (Y := Z.pos my) in *. clearbody X Y.
  assert (Hq : 4503599627370496 <= q < 18014398509481984).
  { split.
    - destruct (Z_lt_le_dec q 4503599627370496) as [Hlt|]; [|assumption].
      exfalso.
      assert (Y * q <= Y * 4503599627370495)
        by (apply Z.mul_le_mono_nonneg_l; lia).
      lia.
    - destruct (Z_lt_le_dec q 18014398509481984) as [|Hge]; [assumption|].
      exfalso.
      assert (Y * 18014398509481984 <= Y * q)
        by (apply Z.mul_le_mono_nonneg_l; lia).
      lia. }
  assert (Hloc : locates (shr_record_of_loc q (new_location Y r)) (Y * q + r) Y)
    by (apply new_location_locates; lia).
  rewrite <- Hqr in Hloc.
  destruct (Z_lt_le_dec q 9007199254740992) as [Hsmall|Hbig].
  - (* the quotient has 53 bits: X < Y *)
    assert (Hdq : Zdigits2 q = 53) by (apply Zdigits2_unique; simpl; lia).
    assert (HXY : X < Y).
    { destruct (Z_lt_le_dec X Y) as [|Hge]; [assumption|]. exfalso.
      assert (Y * q <= Y * 9007199254740991)
        by (apply Z.mul_le_mono_nonneg_l; lia).
      lia. }
    destruct (binary_round_aux_normal q (ex - ey - 53)
                (new_location Y r) (X * 9007199254740992) Y)
      as (m_f & m_r & Hnear & Hmf & Hcase); [lia|exact Hloc|lia|lia|].
    rewrite Hdq in Hnear, Hcase. change (2 ^ (53 - 53)) with 1 in Hnear.
    change (2 ^ 53) with 9007199254740992 in *.
    change (2 ^ 52) with 4503599627370496 in *.
    destruct Hcase as [[Hres Heq]|[Hres [Heq Hmf2]]]; rewrite Hres;
      eexists _, _; (split; [reflexivity|]); (split; [exact Hmf|]);
      (split; [lia|]); split; intros Hord; try lia.
    destruct (Z_lt_le_dec ey ex) as [Hlt|]; [|lia].
    destruct (Z.eq_dec (ex - ey) 1) as [Hone|]; [|lia].
    right. split; [lia|].
    destruct (Z_lt_le_dec 4503599627370496 (Z.pos m_f)) as [|Hle]; [assumption|].
    exfalso. subst m_r.
    assert ((2 * Z.pos m_f + 1) * (1 * Y) <= 9007199254740993 * Y)
      by (rewrite Z.mul_1_l; apply Z.mul_le_mono_nonneg_r; lia).
    lia.
  - (* the quotient has 54 bits: Y <= X *)
    assert (Hdq : Zdigits2 q = 54) by (apply Zdigits2_unique; simpl; lia).
    assert (HXY : Y <= X).
    { destruct (Z_lt_le_dec X Y) as [Hlt|]; [|assumption]. exfalso.
      assert (Y * 9007199254740992 <= Y * q)
        by (apply Z.mul_le_mono_nonneg_l; lia).
      lia. }
    destruct (binary_round_aux_normal q (ex - ey - 53)
                (new_location Y r) (X * 9007199254740992) Y)
      as (m_f & m_r & Hnear & Hmf & Hcase); [lia|exact Hloc|lia|lia|].
    rewrite Hdq in Hnear, Hcase. change (2 ^ (54 - 53)) with 2 in Hnear.
    change (2 ^ 53) with 9007199254740992 in *.
    change (2 ^ 52) with 4503599627370496 in *.
    destruct Hcase as [[Hres Heq]|[Hres [Heq Hmf2]]]; rewrite Hres;
      eexists _, _; (split; [reflexivity|]); (split; [exact Hmf|]);
      (split; [lia|]); split; intros Hord; try lia.
    + destruct (Z_lt_le_dec ex ey) as [|Hge]; [lia|].
      assert (ex = ey) by lia. assert (X = Y) by lia. subst X.
      right. split; [lia|]. subst m_r.
      set (M := Z.pos m_f) in *. clearbody M.
      destruct (Z.lt_trichotomy M 4503599627370496) as [Hlt|[Heq|Hgt]];
        [lia|assumption|exfalso].
      assert ((2 * 4503599627370497 - 1) * (2 * Y) <= (2 * M - 1) * (2 * Y))
        by (apply Z.mul_le_mono_nonneg_r; lia).
      lia.
    + destruct (Z_lt_le_dec ey ex) as [Hlt|]; [lia|].
      assert (ex = ey) by lia.
      right. split; [lia|]. subst m_r.
      set (M := Z.pos m_f) in *. clearbody M.
      destruct (Z_lt_le_dec 4503599627370496 M) as [|Hle]; [assumption|].
      exfalso.
      assert ((2 * M + 1) * (2 * Y) <= 9007199254740993 * (2 * Y))
        by (apply Z.mul_le_mono_nonneg_r; lia).
      lia.
Qed.

Lemma of_int_100 : PyFloat.of_int 100 = S754_finite false hundred (-46).
Proof. vm_compute. reflexivity. Qed.

(** A normal float times 100.0, against 100.0. *)
Lemma mul_100_normal mx ex :
  2 ^ 52 <= Z.pos mx < 2 ^ 53 ->
  -106 <= ex <= 1 ->
  exists m e,
    SFmul PyFloat.prec PyFloat.emax (S754_finite false mx ex) (S754_finite false hundred (-46))
      = S754_finite false m e
    /\ (ex < -52 \/ ex = -52 /\ Z.pos mx = 2 ^ 52 ->
        e < -46 \/ e = -46 /\ Z.pos m <= Z.pos hundred)
    /\ (-52 < ex \/ ex = -52 /\ 2 ^ 52 < Z.pos mx ->
        -46 < e \/ e = -46 /\ Z.pos hundred < Z.pos m).
Proof.
  intros Hmx Hex. unfold SFmul. cbn [xorb].
  rewrite Pos2Z.inj_mul.
  change (2 ^ 53) with 9007199254740992 in *.
  change (2 ^ 52) with 4503599627370496 in *.
  change (Z.pos hundred) with 7036874417766400.
  set (X := Z.pos mx) in *. clearbody X.
  set (P := X * 7036874417766400).
  assert (HP : 0 <= P) by (subst P; lia).
  pose proof (locates_exact P HP) as Hloc.
  destruct (Z_lt_le_dec P (2 ^ 105)) as [Hsmall|Hbig].
  - assert (Hd : Zdigits2 P = 105).
    { apply Zdigits2_unique; [|lia]. split; [|assumption].
      change (2 ^ (105 - 1)) with 20282409603651670423947251286016.
      subst P. lia. }
    destruct (binary_round_aux_normal P (ex + -46) loc_Exact P 1)
      as (m_f & m_r & Hnear & Hmf & Hcase); [lia|exact Hloc|lia|lia|].
    rewrite Hd in Hnear, Hcase.
    change (2 ^ (105 - 53)) with 4503599627370496 in Hnear.
    change (2 ^ 105) with 40564819207303340847894502572032 in *.
    change (2 ^ 53) with 9007199254740992 in *.
    change (2 ^ 52) with 4503599627370496 in *.
    subst P.
    destruct Hcase as [[Hres Heq]|[Hres [Heq Hmf2]]]; rewrite Hres;
      eexists _, _; (split; [reflexivity|]); split; intros Hord; lia.
  - assert (Hd : Zdigits2 P = 106).
    { apply Zdigits2_unique; [|lia]. split; [assumption|].
      change (2 ^ 106) with 81129638414606681695789005144064.
      subst P. lia. }
    destruct (binary_round_aux_normal P (ex + -46) loc_Exact P 1)
      as (m_f & m_r & Hnear & Hmf & Hcase); [lia|exact Hloc|lia|lia|].
    rewrite Hd in Hnear, Hcase.
    change (2 ^ (106 - 53)) with 9007199254740992 in Hnear.
    change (2 ^ 105) with 40564819207303340847894502572032 in *.
    change (2 ^ 53) with 9007199254740992 in *.
    change (2 ^ 52) with 4503599627370496 in *.
    subst P.
    destruct Hcase as [[Hres Heq]|[Hres [Heq Hmf2]]]; rewrite Hres;
      eexists _, _; (split; [reflexivity|]); split; intros Hord; lia.
Qed.

(** The order of two ints read off their mantissas and exponents. *)
Lemma scaled_order a b ma mb ea eb :
  0 < a -> a <= b ->
  ea <= 0 -> eb <= 0 ->
  ma = a * 2 ^ (- ea) -> mb = b * 2 ^ (- eb) ->
  2 ^ 52 <= ma < 2 ^ 53 -> 2 ^ 52 <= mb < 2 ^ 53 ->
  ea < eb \/ ea = eb /\ ma <= mb /\ (a < b -> ma < mb).
Proof.
  intros Ha Hab Hea Heb Hma Hmb Hra Hrb.
  change (2 ^ 53) with 9007199254740992 in *.
  change (2 ^ 52) with 4503599627370496 in *.
  destruct (Z.lt_trichotomy ea eb) as [Hlt|[Heq|Hgt]]; [auto| |].
  - subst eb. set (K := 2 ^ (- ea)) in *.
    assert (0 < K) by (apply Z.pow_pos_nonneg; lia). clearbody K. subst ma mb.
    right. split; [reflexivity|]. split.
    + apply Z.mul_le_mono_nonneg_r; lia.
    + intros Hlt. apply Z.mul_lt_mono_pos_r; lia.
  - exfalso.
    assert (Hsplit : 2 ^ (- eb) = 2 ^ (- ea) * 2 ^ (ea - eb)).
    { rewrite <- Z.pow_add_r by lia. f_equal. lia. }
    assert (Htwo : 2 <= 2 ^ (ea - eb)).
    { change 2 with (2 ^ 1) at 1. apply Z.pow_le_mono_r; lia. }
    set (K := 2 ^ (- ea)) in *. set (L := 2 ^ (ea - eb)) in *.
    assert (0 < K) by (apply Z.pow_pos_nonneg; lia). clearbody K L.
    rewrite Hsplit in Hmb. subst ma mb.
    assert (a * K <= b * K) by (apply Z.mul_le_mono_nonneg_r; lia).
    assert (b * K * 2 <= b * K * L) by (apply Z.mul_le_mono_nonneg_l; lia).
    lia.
Qed.

Lemma leb_finite m e m' e' :
  e < e' \/ e = e' /\ Z.pos m <= Z.pos m' ->
  PyFloat.leb (S754_finite false m e) (S754_finite false m' e') = true.
Proof.
  intros Hord. unfold PyFloat.leb, SFleb, SFcompare.
  destruct (Z.compare_spec e e') as [Heq|Hlt|Hgt]; [|reflexivity|lia].
  rewrite Pos.compare_cont_spec. cbn [Pos.switch_Eq].
  destruct (Pos.compare_spec m m') as [?|?|?]; try reflexivity. lia.
Qed.

Lemma ltb_finite m e m' e' :
  e < e' \/ e = e' /\ Z.pos m < Z.pos m' ->
  PyFloat.ltb (S754_finite false m e) (S754_finite false m' e') = true.
Proof.
  intros Hord. unfold PyFloat.ltb, SFltb, SFcompare.
  destruct (Z.compare_spec e e') as [Heq|Hlt|Hgt]; [|reflexivity|lia].
  rewrite Pos.compare_cont_spec. cbn [Pos.switch_Eq].
  destruct (Pos.compare_spec m m') as [?|?|?]; try reflexivity; lia.
Qed.

(** The percentage of two row counts: never negative, at most 100 when the
    target count is at most the source count, above 100 when it is larger. *)
Lemma percent_float_bounds src tgt :
  0 < src < 2 ^ 53 -> 0 <= tgt < 2 ^ 53 ->
  PyFloat.leb (PyFloat.of_int 0) (percent_float src tgt) = true
  /\ (tgt <= src -> PyFloat.leb (percent_float src tgt) (PyFloat.of_int 100) = true)
  /\ (src < tgt -> PyFloat.ltb (PyFloat.of_int 100) (percent_float src tgt) = true).
Proof.
  intros Hsrc Htgt. unfold percent_float, float_mul_int, PyFloat.mul, PyFloat.div. rewrite of_int_100.
  destruct (of_int_normal src Hsrc) as (ms & es & -> & Hms & Hes & Hsv).
  destruct (Z.eq_dec tgt 0) as [->|Hnz].
  { change (PyFloat.of_int 0) with (S754_zero false). cbn [SFdiv SFmul xorb].
    split; [reflexivity|]. split; [reflexivity|lia]. }
  destruct (of_int_normal tgt) as (mt & et & -> & Hmt & Het & Htv); [lia|].
  destruct (div_normal mt et ms es Hmt Hms Het Hes)
    as (mq & eq & -> & Hmq & Heq & Hle & Hgt).
  destruct (mul_100_normal mq eq Hmq Heq) as (mp & ep & -> & Hle' & Hgt').
  split; [reflexivity|]. split.
  - intros Hord. apply leb_finite.
    assert (Hfl : et < es \/ et = es /\ Z.pos mt <= Z.pos ms).
    { destruct (scaled_order tgt src (Z.pos mt) (Z.pos ms) et es)
        as [?|(? & ? & _)]; try lia; auto. }
    specialize (Hle' (Hle Hfl)). lia.
  - intros Hord. apply ltb_finite.
    assert (Hfl : es < et \/ et = es /\ Z.pos ms < Z.pos mt).
    { destruct (scaled_order src tgt (Z.pos ms) (Z.pos mt) es et)
        as [?|(? & _ & Hs)]; try lia; auto. }
    specialize (Hgt' (Hgt Hfl)). lia.
Qed.

(** ** The percentages of the edges *)

Lemma count_named_range df name : 0 <= count_named df name <= shape0 df.
Proof.
  unfold count_named, shape0, df_mask. simpl.
  pose proof (length_filter (fun e => event_name e = Some name) (rows df)). lia.
Qed.

(** C2: for every filtered frame and every adjacent pair whose source count
    is positive, the edge's percentage is the float
    [tgt_count / src_count * 100], not clamped: it is above 100 whenever the
    target count is the larger one (row counts stay below 2^53), and with
    counts 6 and 9 it is exactly 150.0. *)
Theorem sankey_percent_unclamped (filtered : DataFrame) (steps : list string)
    (i : nat) (s t : string) :
  steps !! i = Some s ->
  steps !! (i + 1)%nat = Some t ->
  let src_count :=
    Z.of_nat (length (filter (fun e => event_name e = Some s) (rows filtered))) in
  let tgt_count :=
    Z.of_nat (length (filter (fun e => event_name e = Some t) (rows filtered))) in
  src_count > 0 ->
  exists edges edge,
    create_sankey_data_for steps filtered = Ok edges
    /\ edges !! i = Some edge
    /\ percent edge
       = PyFloat (PyFloat.mul (PyFloat.div (PyFloat.of_int tgt_count)
                                           (PyFloat.of_int src_count))
                              (PyFloat.of_int 100))
    /\ (src_count < tgt_count -> tgt_count < 2 ^ 53 ->
        PyFloat.ltb (PyFloat.of_int 100) (as_float (percent edge)) = true)
    /\ (src_count = 6 -> tgt_count = 9 ->
        percent edge = PyFloat (PyFloat.of_int 150)).
Proof.
  intros Hs Ht src_count tgt_count Hpos.
  destruct (sankey_edge_at steps filtered i s t Hs Ht) as (edges & Hrun & Hi).
  exists edges, (edge_of filtered (s, t)).
  split; [exact Hrun|]. split; [exact Hi|].
  assert (Hp : percent (edge_of filtered (s, t))
               = PyFloat (percent_float src_count tgt_count)).
  { simpl. unfold percent_of. fold src_count.
    replace (count_named filtered s >? 0) with true; [reflexivity|].
    symmetry. apply Z.gtb_lt. change (count_named filtered s) with src_count. lia. }
  rewrite Hp. split; [reflexivity|]. split.
  - intros Hlt Hbound. simpl.
    apply (percent_float_bounds src_count tgt_count); lia.
  - intros -> ->. reflexivity.
Qed.

Lemma sankey_percent_unclamped_witness :
  exists edges edge,
    create_sankey_data_for ["S1"; "S2"; "S3"] scenario_C = Ok edges
    /\ edges !! 1%nat = Some edge
    /\ percent edge
       = PyFloat (PyFloat.mul (PyFloat.div (PyFloat.of_int 9) (PyFloat.of_int 6))
                              (PyFloat.of_int 100))
    /\ (6 < 9 -> 9 < 2 ^ 53 ->
        PyFloat.ltb (PyFloat.of_int 100) (as_float (percent edge)) = true)
    /\ (6 = 6 -> 9 = 9 -> percent edge = PyFloat (PyFloat.of_int 150)).
Proof.
  apply (sankey_percent_unclamped scenario_C ["S1"; "S2"; "S3"] 1 "S2" "S3");
    reflexivity.
Defined.

(** C6 as stated fails: in scenario C the second edge carries 150.0, which
    is not at most 100. *)
Lemma scenario_C_percent_above_100 :
  exists edges edge,
    create_sankey_data_for ["S1"; "S2"; "S3"] scenario_C = Ok edges
    /\ edges !! 1%nat = Some edge
    /\ percent edge = PyFloat (PyFloat.of_int 150)
    /\ PyFloat.leb (as_float (percent edge)) (PyFloat.of_int 100) = false.
Proof. eexists _, _. repeat split; vm_compute; reflexivity. Qed.

(** C6 as stated fails with the script's own ten steps too: on six PAYMENT
    rows and nine BINGE-SUBSCRIPTION rows the edge between the two steps
    has volume 6 and carries 150.0, which is not at most 100. *)
Lemma funnel_percent_above_100 :
  exists edges edge,
    create_sankey_data nine_after_six = Ok edges
    /\ edges !! 7%nat = Some edge
    /\ source edge = "PAYMENT" /\ target edge = "BINGE-SUBSCRIPTION"
    /\ value edge = 6
    /\ percent edge = PyFloat (PyFloat.of_int 150)
    /\ PyFloat.leb (as_float (percent edge)) (PyFloat.of_int 100) = false.
Proof. eexists _, _. repeat split; vm_compute; reflexivity. Qed.

(** C6, amended: on a frame of fewer than 2^53 rows every edge has an
    integer volume that is at least 0 (the smaller of its two row counts)
    and a percentage that is at least 0: the integer 0 when the source
    count is 0, and otherwise the float [tgt_count / src_count * 100]; the
    percentage is at most 100 when the target count does not exceed the
    source count, and above 100 when it does. *)
Theorem sankey_edge_ranges (filtered : DataFrame) (steps : list string)
    (edges : list Edge) (edge : Edge) :
  shape0 filtered < 2 ^ 53 ->
  create_sankey_data_for steps filtered = Ok edges ->
  edge ∈ edges ->
  let src_count := count_named filtered (source edge) in
  let tgt_count := count_named filtered (target edge) in
  0 <= value edge
  /\ value edge = Z.min src_count tgt_count
  /\ PyFloat.leb (PyFloat.of_int 0) (as_float (percent edge)) = true
  /\ (src_count = 0 -> percent edge = PyInt 0)
  /\ (0 < src_count ->
      percent edge
      = PyFloat (PyFloat.mul (PyFloat.div (PyFloat.of_int tgt_count)
                                          (PyFloat.of_int src_count))
                             (PyFloat.of_int 100)))
  /\ (tgt_count <= src_count ->
      PyFloat.leb (as_float (percent edge)) (PyFloat.of_int 100) = true)
  /\ (0 < src_count < tgt_count ->
      PyFloat.ltb (PyFloat.of_int 100) (as_float (percent edge)) = true).
Proof.
  intros Hrows Hrun Hin. rewrite create_sankey_data_for_eq in Hrun.
  injection Hrun as <-.
  apply list_elem_of_fmap in Hin as ([s t] & -> & _). simpl.
  pose proof (count_named_range filtered s) as Hs.
  pose proof (count_named_range filtered t) as Ht.
  split; [lia|]. split; [reflexivity|]. unfold percent_of.
  destruct (count_named filtered s >? 0) eqn:Hpos.
  - apply Z.gtb_lt in Hpos. simpl.
    destruct (percent_float_bounds (count_named filtered s)
                (count_named filtered t)) as (H0 & Hle & Hgt); [lia|lia|].
    split; [exact H0|]. split; [lia|]. split; [reflexivity|].
    split; [exact Hle|]. intros [_ ?]. auto.
  - assert (count_named filtered s = 0).
    { destruct (Z.gtb_spec (count_named filtered s) 0); [discriminate|lia]. }
    simpl. split; [reflexivity|]. split; [reflexivity|].
    split; [lia|]. split; [reflexivity|lia].
Qed.

Lemma sankey_edge_ranges_witness :
  0 <= 6
  /\ 6 = Z.min 10 6
  /\ PyFloat.leb (PyFloat.of_int 0) (PyFloat.of_int 60) = true
  /\ (10 = 0 -> PyFloat (PyFloat.of_int 60) = PyInt 0)
  /\ (0 < 10 ->
      PyFloat (PyFloat.of_int 60)
      = PyFloat (PyFloat.mul (PyFloat.div (PyFloat.of_int 6) (PyFloat.of_int 10))
                             (PyFloat.of_int 100)))
  /\ (6 <= 10 -> PyFloat.leb (PyFloat.of_int 60) (PyFloat.of_int 100) = true)
  /\ (0 < 10 < 6 -> PyFloat.ltb (PyFloat.of_int 100) (PyFloat.of_int 60) = true).
Proof.
  apply (sankey_edge_ranges scenario_C ["S1"; "S2"; "S3"]
           (map (edge_of scenario_C) (adjacent ["S1"; "S2"; "S3"]))
           (edge_of scenario_C ("S1", "S2"))).
  - vm_compute. reflexivity.
  - reflexivity.
  - apply elem_of_cons. left. reflexivity.
Defined.

(** * Further properties of the script *)

(** ** The Sankey figure *)

(** X1: for every filtered frame [plot_vertical_sankey] returns a figure
    and never raises: every edge name is found among the labels, link [i]
    runs from node [i] to node [i + 1], and the link values and hover
    percentages are those of the nine edges, in order. *)
Theorem plot_vertical_sankey_links (filtered : DataFrame) :
  exists edges,
    create_sankey_data filtered = Ok edges
    /\ plot_vertical_sankey filtered
       = Ok (SankeyFlow funnel_steps (seq 0 9) (seq 1 9)
                        (map value edges) (map percent edges)).
Proof.
  unfold plot_vertical_sankey, create_sankey_data.
  rewrite create_sankey_data_for_eq. eexists. split; reflexivity.
Qed.

(** X2: the edges form one chain: the target of each edge is the source of
    the next one. *)
Theorem sankey_edges_chain (filtered : DataFrame) (steps : list string)
    (edges : list Edge) (i : nat) (e1 e2 : Edge) :
  create_sankey_data_for steps filtered = Ok edges ->
  edges !! i = Some e1 ->
  edges !! (i + 1)%nat = Some e2 ->
  target e1 = source e2.
Proof.
  rewrite create_sankey_data_for_eq. intros [= <-].
  rewrite !list_lookup_fmap.
  destruct (adjacent steps !! i) as [[s1 t1]|] eqn:H1; [|discriminate].
  destruct (adjacent steps !! (i + 1)%nat) as [[s2 t2]|] eqn:H2; [|discriminate].
  simpl. intros [= <-] [= <-]. simpl.
  apply adjacent_lookup_inv in H1 as [_ H1].
  apply adjacent_lookup_inv in H2 as [H2 _]. congruence.
Qed.

Lemma sankey_edges_chain_witness :
  target (edge_of scenario_C ("S1", "S2")) = source (edge_of scenario_C ("S2", "S3")).
Proof.
  apply (sankey_edges_chain scenario_C ["S1"; "S2"; "S3"]
           (map (edge_of scenario_C) (adjacent ["S1"; "S2"; "S3"])) 0);
    reflexivity.
Defined.

(** X3: the builder looks at the frame only through the row count of each
    step: two frames with the same count for every step give the same
    edges, whatever their rows, dates or other cells are. *)
Theorem sankey_depends_on_counts_only (df1 df2 : DataFrame)
    (steps : list string) :
  (forall s, s ∈ steps -> count_named df1 s = count_named df2 s) ->
  create_sankey_data_for steps df1 = create_sankey_data_for steps df2.
Proof.
  intros Hsame. rewrite !create_sankey_data_for_eq. f_equal.
  apply list_eq. intros i. rewrite !list_lookup_fmap.
  destruct (adjacent steps !! i) as [[s t]|] eqn:Hi; [|reflexivity].
  apply adjacent_lookup_inv in Hi as [Hs Ht]. simpl. unfold edge_of. simpl.
  rewrite (Hsame s), (Hsame t); [reflexivity| |];
    eapply list_elem_of_lookup_2; eassumption.
Qed.

Lemma sankey_depends_on_counts_only_witness :
  create_sankey_data_for ["PAYMENT"; "BINGE-SUBSCRIPTION"] three_days
  = create_sankey_data_for ["PAYMENT"; "BINGE-SUBSCRIPTION"]
      (frame_of_counts [("BINGE-SUBSCRIPTION", 1%nat); ("PAYMENT", 2%nat)]).
Proof.
  apply (sankey_depends_on_counts_only three_days
           (frame_of_counts [("BINGE-SUBSCRIPTION", 1%nat); ("PAYMENT", 2%nat)])
           ["PAYMENT"; "BINGE-SUBSCRIPTION"]).
  intros s Hs.
  apply elem_of_cons in Hs as [->|Hs]; [reflexivity|].
  apply elem_of_cons in Hs as [->|Hs]; [reflexivity|]. inversion Hs.
Defined.

Lemma count_named_filtered_le df sd ed p u name :
  count_named (filtered_df df sd ed p u) name <= count_named df name.
Proof.
  unfold count_named, shape0, df_mask. simpl. rewrite filtered_df_rows.
  rewrite list_filter_filter.
  rewrite (list_filter_iff _ (fun e => passes sd ed p u e /\ event_name e = Some name))
    by (intros e; tauto).
  rewrite <- list_filter_filter.
  pose proof (length_filter (passes sd ed p u)
                (filter (fun e => event_name e = Some name) (rows df))). lia.
Qed.

(** X4: filtering never raises a volume: on the filtered frame every edge
    carries at most the volume the same edge has on the whole sheet. *)
Theorem filtering_never_raises_volume (df_copy : DataFrame)
    (start_date end_date : Z) (platform_sel user_type_sel : string)
    (steps : list string) (all_edges kept_edges : list Edge) (i : nat)
    (e_all e_kept : Edge) :
  create_sankey_data_for steps df_copy = Ok all_edges ->
  create_sankey_data_for steps
    (filtered_df df_copy start_date end_date platform_sel user_type_sel)
    = Ok kept_edges ->
  all_edges !! i = Some e_all ->
  kept_edges !! i = Some e_kept ->
  value e_kept <= value e_all.
Proof.
  rewrite !create_sankey_data_for_eq. intros [= <-] [= <-].
  rewrite !list_lookup_fmap.
  destruct (adjacent steps !! i) as [[s t]|]; [|discriminate].
  simpl. intros [= <-] [= <-]. simpl.
  pose proof (count_named_filtered_le df_copy start_date end_date
                platform_sel user_type_sel s).
  pose proof (count_named_filtered_le df_copy start_date end_date
                platform_sel user_type_sel t).
  lia.
Qed.

Lemma filtering_never_raises_volume_witness :
  value (edge_of (filtered_df three_days 1 1 "All" "All")
                 ("PAYMENT", "BINGE-SUBSCRIPTION"))
  <= value (edge_of three_days ("PAYMENT", "BINGE-SUBSCRIPTION")).
Proof.
  apply (filtering_never_raises_volume three_days 1 1 "All" "All"
           ["PAYMENT"; "BINGE-SUBSCRIPTION"]
           (map (edge_of three_days) (adjacent ["PAYMENT"; "BINGE-SUBSCRIPTION"]))
           (map (edge_of (filtered_df three_days 1 1 "All" "All"))
                (adjacent ["PAYMENT"; "BINGE-SUBSCRIPTION"])) 0);
    reflexivity.
Defined.

(** ** The filters and the widgets *)

Lemma frame_eq (a b : DataFrame) :
  columns a = columns b -> rows a = rows b -> a = b.
Proof. destruct a, b. simpl. intros -> ->. reflexivity. Qed.

Lemma filter_all {A} (P : A -> Prop) `{!forall x, Decision (P x)} (l : list A) :
  (forall x, x ∈ l -> P x) -> filter P l = l.
Proof.
  induction l as [|x l IH]; intros Hall; [reflexivity|].
  rewrite filter_cons_True by (apply Hall, elem_of_cons; auto).
  rewrite IH; [reflexivity|]. intros y Hy. apply Hall, elem_of_cons. auto.
Qed.

Lemma filter_none {A} (P : A -> Prop) `{!forall x, Decision (P x)} (l : list A) :
  (forall x, x ∈ l -> ~ P x) -> filter P l = [].
Proof.
  induction l as [|x l IH]; intros Hnone; [reflexivity|].
  rewrite filter_cons_False by (apply Hnone, elem_of_cons; auto).
  apply IH. intros y Hy. apply Hnone, elem_of_cons. auto.
Qed.

Lemma foldr_min_le d ds x : x ∈ d :: ds -> foldr Z.min d ds <= x.
Proof.
  induction ds as [|y ds IH]; simpl; intros Hx.
  - apply list_elem_of_singleton in Hx. lia.
  - rewrite !elem_of_cons in Hx. destruct Hx as [->|[->|Hx]].
    + assert (foldr Z.min d ds <= d) by (apply IH, elem_of_cons; auto). lia.
    + lia.
    + assert (foldr Z.min d ds <= x) by (apply IH, elem_of_cons; auto). lia.
Qed.

Lemma foldr_max_ge d ds x : x ∈ d :: ds -> x <= foldr Z.max d ds.
Proof.
  induction ds as [|y ds IH]; simpl; intros Hx.
  - apply list_elem_of_singleton in Hx. lia.
  - rewrite !elem_of_cons in Hx. destruct Hx as [->|[->|Hx]].
    + assert (d <= foldr Z.max d ds) by (apply IH, elem_of_cons; auto). lia.
    + lia.
    + assert (x <= foldr Z.max d ds) by (apply IH, elem_of_cons; auto). lia.
Qed.

Lemma initial_widgets_inv df w :
  initial_widgets df = Some w ->
  platform_sel w = All /\ user_type_sel w = All
  /\ explorer_choice w = 0%nat /\ top_n w = 20
  /\ rows df <> []
  /\ forall e, e ∈ rows df -> start_date w <= event_date e <= end_date w.
Proof.
  unfold initial_widgets. destruct (rows df) as [|e0 l] eqn:Hrows; [discriminate|].
  simpl. intros [= <-]. simpl. repeat split; try reflexivity; try discriminate.
  - apply foldr_min_le. change (event_date e ∈ map event_date (e0 :: l)).
    apply list_elem_of_fmap. eauto.
  - apply foldr_max_ge. change (event_date e ∈ map event_date (e0 :: l)).
    apply list_elem_of_fmap. eauto.
Qed.

(** X5: on the first run nothing is filtered out: with the date inputs on
    the first and last day of the sheet and both select boxes on their first
    option, the filtered frame is the whole sheet. *)
Theorem first_run_shows_every_row (df_copy : DataFrame) (w : Widgets) :
  initial_widgets df_copy = Some w ->
  filtered_df df_copy (start_date w) (end_date w)
              (platform_sel w) (user_type_sel w)
  = df_copy.
Proof.
  intros Hw. apply initial_widgets_inv in Hw as (Hp & Hu & _ & _ & _ & Hdates).
  apply frame_eq; [apply filtered_df_columns|].
  rewrite filtered_df_rows. apply filter_all. intros e He.
  unfold passes. rewrite Hp, Hu. specialize (Hdates e He). tauto.
Qed.

Lemma first_run_shows_every_row_witness :
  filtered_df three_days 1 3 "All" "All" = three_days.
Proof. apply (first_run_shows_every_row three_days first_load). reflexivity. Defined.

Lemma filtered_df_rows_twice df s1 e1 p1 u1 s2 e2 p2 u2 :
  rows (filtered_df (filtered_df df s1 e1 p1 u1) s2 e2 p2 u2)
  = filter (fun e => passes s2 e2 p2 u2 e /\ passes s1 e1 p1 u1 e) (rows df).
Proof. rewrite !filtered_df_rows. apply list_filter_filter. Qed.

(** X6: filters compose by intersection.  Filtering a filtered frame by a
    second date range, with the select boxes unchanged, is filtering the
    sheet once by the overlap of the two ranges; and two filter settings
    applied one after the other give the same frame in either order. *)
Theorem filters_compose (df_copy : DataFrame) (s1 e1 s2 e2 : Z)
    (p u p' u' : string) :
  filtered_df (filtered_df df_copy s1 e1 p u) s2 e2 p u
  = filtered_df df_copy (Z.max s1 s2) (Z.min e1 e2) p u
  /\ filtered_df (filtered_df df_copy s1 e1 p u) s2 e2 p' u'
     = filtered_df (filtered_df df_copy s2 e2 p' u') s1 e1 p u.
Proof.
  split; (apply frame_eq; [rewrite !filtered_df_columns; reflexivity|]);
    rewrite !filtered_df_rows_twice, ?filtered_df_rows;
    apply list_filter_iff; intros e; unfold passes; intuition lia.
Qed.

Lemma filtered_df_empty df sd ed p u :
  sd > ed -> rows (filtered_df df sd ed p u) = [].
Proof.
  intros Hgt. rewrite filtered_df_rows. apply filter_none.
  intros e _. unfold passes. lia.
Qed.

(** X7: an empty selection is drawn, not refused.  With the start date
    after the end date no row is left; the builder still returns its nine
    edges, each with volume 0 and the integer 0 as percentage; the funnel
    table has NaN for all ten steps; the daily table is empty; and the
    device table is empty when the sheet has an [mp_os] column. *)
Theorem empty_selection_is_drawn (df_copy : DataFrame)
    (start_date end_date : Z) (platform_sel user_type_sel : string) :
  start_date > end_date ->
  let fdf := filtered_df df_copy start_date end_date
                         platform_sel user_type_sel in
  shape0 fdf = 0
  /\ (exists edges,
        create_sankey_data fdf = Ok edges
        /\ length edges = 9%nat
        /\ Forall (fun e => value e = 0 /\ percent e = PyInt 0) edges)
  /\ funnel_counts fdf = map (fun s => (s, PyFloat S754_nan)) funnel_steps
  /\ daily_events fdf = []
  /\ ("mp_os" ∈ columns df_copy -> device_summary fdf = Ok []).
Proof.
  intros Hgt fdf.
  pose proof (filtered_df_empty df_copy start_date end_date
                platform_sel user_type_sel Hgt) as Hrows.
  pose proof (filtered_df_columns df_copy start_date end_date
                platform_sel user_type_sel) as Hcols.
  fold fdf in Hrows, Hcols. clearbody fdf. destruct fdf as [c r].
  simpl in Hrows, Hcols. subst r c.
  split; [reflexivity|]. split.
  - unfold create_sankey_data. rewrite create_sankey_data_for_eq.
    eexists. split; [reflexivity|]. split; [reflexivity|].
    repeat constructor.
  - split; [reflexivity|]. split; [reflexivity|].
    intros Hos. unfold device_summary. rewrite getcol_ok by exact Hos.
    reflexivity.
Qed.

Lemma empty_selection_is_drawn_witness :
  let fdf := filtered_df three_days 3 1 "All" "All" in
  shape0 fdf = 0
  /\ (exists edges,
        create_sankey_data fdf = Ok edges
        /\ length edges = 9%nat
        /\ Forall (fun e => value e = 0 /\ percent e = PyInt 0) edges)
  /\ funnel_counts fdf = map (fun s => (s, PyFloat S754_nan)) funnel_steps
  /\ daily_events fdf = []
  /\ ("mp_os" ∈ columns three_days -> device_summary fdf = Ok []).
Proof. apply (empty_selection_is_drawn three_days 3 1 "All" "All"). reflexivity. Defined.

Lemma select_options_elem cells p :
  p ∈ select_options cells <-> p = All \/ Some p ∈ cells.
Proof.
  unfold select_options. rewrite elem_of_cons, sort_by_elem, uniques_elem.
  rewrite elem_of_nil. tauto.
Qed.

(** X8: the platform select box has no dead option.  Its first option is
    "All", every platform of the sheet is offered, and with the dates of the
    first run every offered option leaves at least one row. *)
Theorem platform_options_all_match (df_copy : DataFrame) (w : Widgets)
    (p : string) :
  initial_widgets df_copy = Some w ->
  p ∈ platform_options df_copy ->
  head (platform_options df_copy) = Some "All"
  /\ (forall e q, e ∈ rows df_copy -> platform e = Some q ->
        q ∈ platform_options df_copy)
  /\ rows (filtered_df df_copy (start_date w) (end_date w) p (user_type_sel w))
     <> [].
Proof.
  intros Hw Hp. apply initial_widgets_inv in Hw as (_ & Hu & _ & _ & Hne & Hdates).
  split; [reflexivity|]. split.
  - intros e q He Hq. apply select_options_elem. right.
    apply list_elem_of_fmap. exists e. auto.
  - rewrite filtered_df_rows, Hu.
    assert (Hex : exists e, e ∈ rows df_copy /\ (p = All \/ platform e = Some p)).
    { apply select_options_elem in Hp as [->|Hp].
      - destruct (rows df_copy) as [|e0 l]; [contradiction|].
        exists e0. split; [apply elem_of_cons|]; auto.
      - apply list_elem_of_fmap in Hp as (e & Hq & He). exists e. auto. }
    destruct Hex as (e & He & Hpe). intros Hnil.
    assert (Hin : e ∈ filter (passes (start_date w) (end_date w) p All)
                              (rows df_copy)).
    { apply list_elem_of_filter. split; [|exact He].
      unfold passes. specialize (Hdates e He). tauto. }
    rewrite Hnil in Hin. inversion Hin.
Qed.

Lemma platform_options_all_match_witness :
  head (platform_options three_days) = Some "All"
  /\ (forall e q, e ∈ rows three_days -> platform e = Some q ->
        q ∈ platform_options three_days)
  /\ rows (filtered_df three_days 1 3 "ios" "All") <> [].
Proof.
  apply (platform_options_all_match three_days first_load "ios").
  - reflexivity.
  - apply select_options_elem. right.
    apply elem_of_cons. right. apply elem_of_cons. left. reflexivity.
Defined.

(** ** Where a run stops *)

(** Once the widgets have their values, the chart blocks can only end in a
    [KeyError], at the first of three columns that is missing. *)
Lemma charts_stop_at_first_missing_column (df_copy : DataFrame) (w : Widgets) :
  snd (dashboard df_copy w)
  = (if decide ("af_campaign" ∈ columns df_copy) then
       if decide ("mp_os" ∈ columns df_copy) then
         if decide ("pack_name" ∈ columns df_copy
                    /\ "pack_price" ∉ columns df_copy)
         then Some (KeyError (Some "pack_price"))
         else None
       else Some (KeyError (Some "mp_os"))
     else Some (KeyError (Some "af_campaign")))
  /\ take 3 (map chart_name (fst (dashboard df_copy w)))
     = ["funnel"; "sankey"; "daily"].
Proof.
  unfold dashboard, sections.
  set (fdf := filtered_df df_copy _ _ _ _).
  assert (Hcols : columns fdf = columns df_copy) by apply filtered_df_columns.
  destruct (plot_vertical_sankey_ok fdf) as (sk & -> & Hsk).
  unfold campaign_summary, device_summary, payment_summary, pack_summary.
  destruct (decide ("af_campaign" ∈ columns df_copy)) as [Hc|Hc];
    [rewrite getcol_ok by (simpl; rewrite Hcols; assumption)
    |rewrite getcol_raise by (simpl; rewrite Hcols; assumption);
     simpl; rewrite Hsk; split; reflexivity].
  destruct (decide ("mp_os" ∈ columns df_copy)) as [Hos|Hos];
    [rewrite getcol_ok by (rewrite Hcols; assumption)
    |rewrite getcol_raise by (rewrite Hcols; assumption);
     simpl; rewrite Hsk; split; reflexivity].
  destruct (col_counts_ok df_copy (explorer_choice w) (top_n w) Hos)
    as (c & t & -> & ->).
  rewrite Hcols.
  destruct (decide ("payment_method" ∈ columns df_copy
                    /\ "payment_status" ∈ columns df_copy)) as [[Hm Hs]|Hno];
    rewrite ?getcol_ok by (rewrite Hcols; assumption);
    (destruct (decide ("pack_name" ∈ columns df_copy)) as [Hp|Hnp];
      [destruct (decide ("pack_price" ∈ columns df_copy)) as [Hpp|Hpp];
        [rewrite !getcol_ok by (rewrite Hcols; assumption)
        |rewrite (getcol_ok _ "pack_name") by (rewrite Hcols; assumption);
         rewrite getcol_raise by (rewrite Hcols; assumption)]
      |]);
    simpl; rewrite Hsk;
    (split; [|reflexivity]);
    case_decide; try reflexivity; tauto.
Qed.

(** X9: where a run ends, on a sheet that has the four columns every frame
    carries.  On a sheet without rows it ends at the first date input,
    before any chart.  On a sheet with rows it can only end in a
    [KeyError], and only at one of three places: at the campaign chart when
    the sheet has no [af_campaign] column, else at the device chart when it
    has no [mp_os] column, else at the pack chart when it has [pack_name]
    without [pack_price]; otherwise it raises nothing.  The funnel, Sankey
    and daily charts are plotted in every run on a sheet with rows. *)
Theorem run_stops_at_first_missing_column (df_copy : DataFrame) (w : Widgets) :
  (rows df_copy = [] ->
   script df_copy w = ([], Some StreamlitAPIException))
  /\ (rows df_copy <> [] ->
      snd (script df_copy w)
      = (if decide ("af_campaign" ∈ columns df_copy) then
           if decide ("mp_os" ∈ columns df_copy) then
             if decide ("pack_name" ∈ columns df_copy
                        /\ "pack_price" ∉ columns df_copy)
             then Some (KeyError (Some "pack_price"))
             else None
           else Some (KeyError (Some "mp_os"))
         else Some (KeyError (Some "af_campaign")))
      /\ take 3 (map chart_name (fst (script df_copy w)))
         = ["funnel"; "sankey"; "daily"]).
Proof.
  split.
  - apply script_without_rows.
  - intros Hrows. rewrite script_with_rows by exact Hrows.
    apply charts_stop_at_first_missing_column.
Qed.

Lemma run_stops_at_first_missing_column_witness :
  (rows payment_sheet = [] ->
   script payment_sheet first_load = ([], Some StreamlitAPIException))
  /\ (rows payment_sheet <> [] ->
      snd (script payment_sheet first_load) = None
      /\ take 3 (map chart_name (fst (script payment_sheet first_load)))
         = ["funnel"; "sankey"; "daily"]).
Proof. exact (run_stops_at_first_missing_column payment_sheet first_load). Defined.

Example script_on_empty_sheet :
  script {| columns := ["af_campaign"; "mp_os"]; rows := [] |} first_load
  = ([], Some StreamlitAPIException).
Proof. reflexivity. Qed.

(** ** Sorting, grouping and counting *)

Lemma insert_by_perm {A} (before : A -> A -> bool) x l :
  insert_by before x l ≡ₚ x :: l.
Proof.
  induction l as [|y l IH]; simpl; [reflexivity|].
  destruct (before x y); [reflexivity|].
  rewrite IH. apply perm_swap.
Qed.

Lemma sort_by_perm {A} (before : A -> A -> bool) l : sort_by before l ≡ₚ l.
Proof.
  induction l as [|x l IH]; simpl; [reflexivity|].
  rewrite insert_by_perm. apply Permutation_cons; [reflexivity|exact IH].
Qed.

Lemma total_perm {A} (t t' : list (A * Z)) : t ≡ₚ t' -> total t = total t'.
Proof. induction 1; simpl; lia. Qed.

Lemma total_nonneg_counts {A} (key : A -> Z) (D : list A) :
  (forall a, 0 <= key a) -> 0 <= total (map (fun a => (a, key a)) D).
Proof. intros Hk. induction D as [|a D IH]; simpl; [lia|]. specialize (Hk a). lia. Qed.

Section Ordered.
Context {A : Type} (R : A -> A -> Prop) (before : A -> A -> bool).
Hypothesis before_true : forall a b, before a b = true -> R a b.
Hypothesis before_false : forall a b, before a b = false -> R b a.
Hypothesis R_trans : forall a b c, R a b -> R b c -> R a c.

Lemma insert_by_ordered x l :
  ordered R l -> ordered R (insert_by before x l).
Proof.
  induction l as [|y l IH]; simpl; [auto|].
  intros [Hy Hl]. destruct (before x y) eqn:Hxy; simpl.
  - split; [|auto]. constructor; [auto|].
    eapply Forall_impl; [exact Hy|]. intros z Hz. eauto.
  - split; [|auto]. apply Forall_forall. intros z Hz.
    apply insert_by_elem in Hz as [->|Hz]; [auto|].
    rewrite Forall_forall in Hy. auto.
Qed.

Lemma sort_by_ordered l : ordered R (sort_by before l).
Proof.
  induction l as [|x l IH]; simpl; [exact I|].
  apply insert_by_ordered, IH.
Qed.

End Ordered.

Lemma sort_by_id {A} (before : A -> A -> bool) l :
  ordered (fun a b => before a b = true) l -> sort_by before l = l.
Proof.
  induction l as [|x l IH]; simpl; [reflexivity|].
  intros [Hx Hl]. rewrite IH by exact Hl.
  destruct l as [|y l]; [reflexivity|]. simpl.
  apply Forall_cons in Hx as [-> _]. reflexivity.
Qed.

Lemma ordered_app {A} (R : A -> A -> Prop) l1 l2 :
  ordered R (l1 ++ l2) ->
  ordered R l1 /\ forall a b, a ∈ l1 -> b ∈ l2 -> R a b.
Proof.
  induction l1 as [|x l1 IH]; simpl.
  - intros _. split; [exact I|]. intros a b Ha. inversion Ha.
  - intros [Hx Hl]. apply Forall_app in Hx as [Hx1 Hx2].
    destruct (IH Hl) as [Ho Hc]. split; [auto|].
    intros a b Ha Hb. apply elem_of_cons in Ha as [->|Ha]; [|auto].
    rewrite Forall_forall in Hx2. auto.
Qed.

Lemma ordered_strict {A} (key : A -> Z) l :
  ordered (fun a b => key a <= key b) l ->
  NoDup (map key l) ->
  ordered (fun a b => key a < key b) l.
Proof.
  induction l as [|x l IH]; simpl; [auto|].
  intros [Hx Hl] Hnd. apply NoDup_cons in Hnd as [Hnin Hnd].
  split; [|auto]. apply Forall_forall. intros y Hy.
  rewrite Forall_forall in Hx. specialize (Hx y Hy).
  assert (key x <> key y); [|lia].
  intros Heq. apply Hnin. rewrite Heq. apply list_elem_of_fmap. eauto.
Qed.

Lemma uniques_NoDup cells : forall seen, NoDup (uniques seen cells).
Proof.
  induction cells as [|[c|] cells IH]; intros seen; simpl; [constructor| |auto].
  case_decide; [auto|]. constructor; [|auto].
  rewrite uniques_elem. intros [_ Hn]. apply Hn, elem_of_cons. auto.
Qed.

Lemma length_filter_fmap {A B} (f : A -> B) (P : B -> Prop)
    `{!forall y, Decision (P y)} (l : list A) :
  length (filter P (map f l)) = length (filter (fun x => P (f x)) l).
Proof.
  induction l as [|x l IH]; [reflexivity|]. simpl map.
  rewrite !filter_cons. destruct (decide (P (f x))); simpl; rewrite IH; reflexivity.
Qed.

(** Counting the cells group by group counts every cell in a group once. *)
Lemma total_counts {A K} `{EqDecision A} (key : K -> A) (D : list K) (l : list A) :
  NoDup (map key D) ->
  total (map (fun k => (k, Z.of_nat (length (filter (fun x => x = key k) l)))) D)
  = Z.of_nat (length (filter (fun x => x ∈ map key D) l)).
Proof.
  induction D as [|k D IH]; simpl; intros Hnd.
  - rewrite filter_none; [reflexivity|]. intros x _ Hx. inversion Hx.
  - apply NoDup_cons in Hnd as [Hnin Hnd]. rewrite IH by exact Hnd.
    clear IH. induction l as [|x l IHl]; [reflexivity|].
    rewrite !filter_cons.
    repeat case_decide; simpl length; try lia; exfalso;
      rewrite ?elem_of_cons in *; subst; tauto.
Qed.

Lemma filter_ext_in {A} (P Q : A -> Prop) `{!forall x, Decision (P x)}
    `{!forall x, Decision (Q x)} (l : list A) :
  (forall x, x ∈ l -> P x <-> Q x) -> filter P l = filter Q l.
Proof.
  induction l as [|x l IH]; intros Hext; [reflexivity|].
  rewrite !filter_cons.
  assert (Hx : P x <-> Q x) by (apply Hext, elem_of_cons; auto).
  rewrite IH by (intros y Hy; apply Hext, elem_of_cons; auto).
  repeat case_decide; tauto.
Qed.

Lemma occurrences_pos cells s : 1 <= occurrences cells s <-> Some s ∈ cells.
Proof.
  unfold occurrences. split.
  - intros Hpos. destruct (filter _ cells) as [|c l] eqn:Hf; [simpl in Hpos; lia|].
    assert (Hc : c ∈ filter (fun c => c = Some s) cells)
      by (rewrite Hf; apply elem_of_cons; auto).
    apply list_elem_of_filter in Hc as [-> Hc]. exact Hc.
  - intros Hin.
    assert (Hc : Some s ∈ filter (fun c => c = Some s) cells)
      by (apply list_elem_of_filter; auto).
    destruct (filter _ cells); [inversion Hc|simpl; lia].
Qed.

(** What [value_counts] returns: one row per distinct non-null cell, with
    the number of cells holding it; the counts add up to the number of
    non-null cells; larger counts come first. *)
Lemma value_counts_spec cells :
  NoDup (map fst (value_counts cells))
  /\ (forall s c, (s, c) ∈ value_counts cells
                  <-> c = occurrences cells s /\ 1 <= c)
  /\ total (value_counts cells)
     = Z.of_nat (length (filter (fun c => c <> None) cells))
  /\ ordered (fun a b => snd b <= snd a) (value_counts cells).
Proof.
  unfold value_counts.
  set (table := map (fun s => (s, occurrences cells s)) (uniques [] cells)).
  assert (Hperm : sort_by (fun a b => snd b <=? snd a) table ≡ₚ table)
    by apply sort_by_perm.
  split; [|split; [|split]].
  - rewrite Hperm. subst table. rewrite map_map. simpl. rewrite map_id.
    apply uniques_NoDup.
  - intros s c. rewrite sort_by_elem. subst table. rewrite list_elem_of_fmap.
    split.
    + intros (s' & [= -> ->] & Hs). apply uniques_elem in Hs as [Hs _].
      split; [reflexivity|]. apply occurrences_pos, Hs.
    + intros [-> Hpos]. exists s. split; [reflexivity|].
      apply uniques_elem. split; [apply occurrences_pos, Hpos|].
      intros Hin. inversion Hin.
  - rewrite (total_perm _ _ Hperm). subst table. unfold occurrences.
    rewrite (total_counts Some (uniques [] cells) cells)
      by (apply NoDup_fmap_2; [intros ? ? [=]; auto|apply uniques_NoDup]).
    do 2 f_equal. apply filter_ext_in. intros c Hc. split.
    + intros Hin Hnone. subst c.
      apply list_elem_of_fmap in Hin as (? & [=] & _).
    + intros Hne. destruct c as [s|]; [|contradiction].
      apply list_elem_of_fmap. exists s. split; [reflexivity|].
      apply uniques_elem. split; [exact Hc|]. intros Hin. inversion Hin.
  - apply (sort_by_ordered (fun a b => snd b <= snd a)
                           (fun a b => snd b <=? snd a)).
    + intros a b Hab. apply Z.leb_le, Hab.
    + intros a b Hab. apply Z.leb_gt in Hab. lia.
    + intros a b c ? ?. lia.
Qed.

(** ** The device chart *)

(** X10: the device table has one row per operating system seen in the
    filtered rows, each with the number of filtered rows of that system (at
    least 1), the largest count first; the counts add up to the number of
    filtered rows whose [mp_os] cell is not null. *)
Theorem device_summary_counts (filtered : DataFrame) (t : list (string * Z)) :
  device_summary filtered = Ok t ->
  NoDup (map fst t)
  /\ (forall os c, (os, c) ∈ t <->
        c = Z.of_nat (length (filter (fun e => attrs e !! "mp_os" = Some os)
                                     (rows filtered)))
        /\ 1 <= c)
  /\ total t
     = Z.of_nat (length (filter (fun e => attrs e !! "mp_os" <> None)
                                (rows filtered)))
  /\ ordered (fun a b => snd b <= snd a) t.
Proof.
  unfold device_summary, getcol. case_decide; [|discriminate].
  simpl. intros [= <-].
  destruct (value_counts_spec (map (fun e => attrs e !! "mp_os") (rows filtered)))
    as (Hnd & Hin & Htot & Hord).
  split; [exact Hnd|]. split; [|split; [|exact Hord]].
  - intros os c. rewrite Hin. unfold occurrences.
    rewrite length_filter_fmap. reflexivity.
  - rewrite Htot, length_filter_fmap. reflexivity.
Qed.

Lemma device_summary_counts_witness :
  NoDup (map fst [("Android", 3); ("iOS", 1)])
  /\ (forall os c, (os, c) ∈ [("Android", 3); ("iOS", 1)] <->
        c = Z.of_nat (length (filter (fun e => attrs e !! "mp_os" = Some os)
                                     (rows three_days)))
        /\ 1 <= c)
  /\ total [("Android", 3); ("iOS", 1)]
     = Z.of_nat (length (filter (fun e => attrs e !! "mp_os" <> None)
                                (rows three_days)))
  /\ ordered (fun a b => snd b <= snd a) [("Android", 3); ("iOS", 1)].
Proof. apply (device_summary_counts three_days). vm_compute. reflexivity. Defined.

(** ** The funnel bar chart *)

Lemma series_get_present cells s :
  Some s ∈ cells ->
  series_get (value_counts cells) s = Some (occurrences cells s).
Proof.
  intros Hs. destruct (value_counts_spec cells) as (_ & Hin & _ & _).
  unfold series_get.
  destruct (list_find _ (value_counts cells)) as [[i [l c]]|] eqn:Hf.
  - apply list_find_Some in Hf as (Hi & Hl & _). simpl in Hl. subst l.
    apply list_elem_of_lookup_2 in Hi. apply Hin in Hi as [-> _]. reflexivity.
  - exfalso. apply list_find_None in Hf. rewrite Forall_forall in Hf.
    apply (Hf (s, occurrences cells s)); [|reflexivity].
    apply Hin. split; [reflexivity|]. apply occurrences_pos, Hs.
Qed.

Lemma funnel_occurrences filtered step :
  step ∈ funnel_steps ->
  occurrences
    (map event_name
         (rows (df_mask (fun e => isin funnel_steps (event_name e)) filtered)))
    step
  = count_named filtered step.
Proof.
  intros Hstep. unfold occurrences, count_named, shape0, df_mask. simpl.
  rewrite length_filter_fmap, list_filter_filter. do 2 f_equal.
  apply list_filter_iff. intros e. split; [tauto|].
  intros He. split; [exact He|]. rewrite He. exact Hstep.
Qed.

(** X11: the funnel bar chart and the Sankey builder count alike.  For a
    funnel step with at least one filtered row, the bar table holds, at the
    step's position, the very row count the builder uses (as a float once
    some other step is absent); when all ten steps occur, the table is the
    ten integer counts. *)
Theorem funnel_bar_agrees_with_sankey (filtered : DataFrame) (i : nat)
    (step : string) :
  funnel_steps !! i = Some step ->
  1 <= count_named filtered step ->
  (exists x,
     funnel_counts filtered !! i = Some (step, x)
     /\ as_float x = PyFloat.of_int (count_named filtered step))
  /\ ((forall s, s ∈ funnel_steps -> 1 <= count_named filtered s) ->
      funnel_counts filtered
      = map (fun s => (s, PyInt (count_named filtered s))) funnel_steps).
Proof.
  intros Hi Hpos. unfold funnel_counts.
  set (cells := map event_name (rows (df_mask _ filtered))).
  assert (Hget : forall s, s ∈ funnel_steps -> 1 <= count_named filtered s ->
            series_get (value_counts cells) s = Some (count_named filtered s)).
  { intros s Hs Hc. rewrite <- (funnel_occurrences filtered s Hs).
    apply series_get_present, occurrences_pos.
    subst cells. rewrite funnel_occurrences by exact Hs. exact Hc. }
  assert (Hstep : step ∈ funnel_steps) by (eapply list_elem_of_lookup_2, Hi).
  split.
  - unfold reindex. case_decide; rewrite list_lookup_fmap, Hi; simpl;
      rewrite (Hget step Hstep Hpos); eexists; split; reflexivity.
  - intros Hall. unfold reindex. rewrite decide_True.
    + apply map_ext_in. intros s Hs. apply list_elem_of_In in Hs.
      rewrite (Hget s Hs (Hall s Hs)). reflexivity.
    + apply Forall_forall. intros s Hs.
      rewrite (Hget s Hs (Hall s Hs)). eauto.
Qed.

Lemma funnel_bar_agrees_with_sankey_witness :
  (exists x,
     funnel_counts three_days !! 7%nat = Some ("PAYMENT", x)
     /\ as_float x = PyFloat.of_int (count_named three_days "PAYMENT"))
  /\ ((forall s, s ∈ funnel_steps -> 1 <= count_named three_days s) ->
      funnel_counts three_days
      = map (fun s => (s, PyInt (count_named three_days s))) funnel_steps).
Proof.
  apply (funnel_bar_agrees_with_sankey three_days 7 "PAYMENT");
    [reflexivity|vm_compute; discriminate].
Defined.

(** ** The daily trend *)

(** X12: the daily table has one row per day with events, each with the
    number of filtered rows of that day (at least 1), in strictly
    increasing date order; its counts add up to the number of filtered
    rows. *)
Theorem daily_events_counts (filtered : DataFrame) :
  total (daily_events filtered) = shape0 filtered
  /\ ordered (fun a b => fst a < fst b) (daily_events filtered)
  /\ (forall d c, (d, c) ∈ daily_events filtered <->
        c = Z.of_nat (length (filter (fun e => event_date e = d)
                                     (rows filtered)))
        /\ 1 <= c).
Proof.
  unfold daily_events, shape0.
  set (dates := map event_date (rows filtered)).
  set (table := map (fun d => (d, Z.of_nat (length (filter (fun x => x = d) dates))))
                    (remove_dups dates)).
  assert (Hperm : sort_by (fun a b => fst a <=? fst b) table ≡ₚ table)
    by apply sort_by_perm.
  assert (Hkeys : map fst table = remove_dups dates)
    by (subst table; rewrite map_map; apply map_id).
  split; [|split].
  - rewrite (total_perm _ _ Hperm). subst table.
    rewrite (total_counts (fun d => d) (remove_dups dates) dates)
      by (rewrite map_id; apply NoDup_remove_dups).
    rewrite map_id, filter_all by (intros x Hx; apply elem_of_remove_dups, Hx).
    subst dates. rewrite length_map. reflexivity.
  - apply ordered_strict.
    + apply (sort_by_ordered (fun a b => fst a <= fst b)
                             (fun a b => fst a <=? fst b)).
      * intros a b Hab. apply Z.leb_le, Hab.
      * intros a b Hab. apply Z.leb_gt in Hab. lia.
      * intros a b c ? ?. lia.
    + rewrite Hperm, Hkeys. apply NoDup_remove_dups.
  - intros d c. rewrite sort_by_elem. subst table. rewrite list_elem_of_fmap.
    assert (Hcount : forall d', length (filter (fun x => x = d') dates)
                     = length (filter (fun e => event_date e = d') (rows filtered)))
      by (intros d'; subst dates; apply length_filter_fmap).
    split.
    + intros (d' & [= -> ->] & Hd). rewrite Hcount. split; [reflexivity|].
      rewrite elem_of_remove_dups in Hd.
      assert (Hin : d' ∈ filter (fun x => x = d') dates)
        by (apply list_elem_of_filter; split; [reflexivity|exact Hd]).
      rewrite <- Hcount. destruct (filter _ dates); [inversion Hin|simpl; lia].
    + intros [-> Hpos]. exists d. rewrite Hcount. split; [reflexivity|].
      apply elem_of_remove_dups. rewrite <- Hcount in Hpos.
      destruct (filter (fun x => x = d) dates) as [|x l] eqn:Hf;
        [simpl in Hpos; lia|].
      assert (Hx : x ∈ filter (fun x => x = d) dates)
        by (rewrite Hf; apply elem_of_cons; auto).
      apply list_elem_of_filter in Hx as [-> Hx]. exact Hx.
Qed.

(** ** The device attribute explorer *)

Lemma ordered_impl {A} (R R' : A -> A -> Prop) l :
  (forall a b, R a b -> R' a b) -> ordered R l -> ordered R' l.
Proof.
  intros Himpl. induction l as [|x l IH]; simpl; [auto|].
  intros [Hx Hl]. split; [|auto]. eapply Forall_impl; [exact Hx|]. auto.
Qed.

Lemma nlargest_value_counts n cells :
  nlargest n (value_counts cells) = take (Z.to_nat n) (value_counts cells).
Proof.
  unfold nlargest. f_equal. apply sort_by_id.
  destruct (value_counts_spec cells) as (_ & _ & _ & Hord).
  eapply ordered_impl; [|exact Hord]. intros a b Hab. apply Z.leb_le, Hab.
Qed.

(** X13: the explorer table is a top-N table of the whole sheet.  It has at
    most [top_n] rows, one per value, largest count first, each count being
    the number of rows of the sheet holding the value; and a value of the
    column is left out only when the table is full and every row shown has
    at least that value's count. *)
Theorem explorer_shows_top_n (df_copy : DataFrame) (c : string) (n : Z)
    (t : list (string * Z)) :
  col_counts df_copy (Some c) n = Ok t ->
  let held v :=
    Z.of_nat (length (filter (fun e => attrs e !! c = Some v) (rows df_copy))) in
  Z.of_nat (length t) <= Z.max 0 n
  /\ NoDup (map fst t)
  /\ ordered (fun a b => snd b <= snd a) t
  /\ (forall v k, (v, k) ∈ t -> k = held v /\ 1 <= k)
  /\ (forall v, 1 <= held v ->
        (v, held v) ∈ t
        \/ (Z.of_nat (length t) = Z.max 0 n
            /\ forall a, a ∈ t -> held v <= snd a)).
Proof.
  intros Hrun held. unfold col_counts, getcol in Hrun.
  case_decide; [|discriminate]. simpl in Hrun. injection Hrun as <-.
  set (cells := map (fun e => attrs e !! c) (rows df_copy)).
  rewrite nlargest_value_counts.
  destruct (value_counts_spec cells) as (Hnd & Hin & _ & Hord).
  assert (Hheld : forall v, occurrences cells v = held v).
  { intros v. unfold occurrences, held. subst cells.
    rewrite length_filter_fmap. reflexivity. }
  pose proof (take_drop (Z.to_nat n) (value_counts cells)) as Hsplit.
  set (shown := take (Z.to_nat n) (value_counts cells)) in *.
  set (rest := drop (Z.to_nat n) (value_counts cells)) in *.
  assert (Hlen : length shown = Nat.min (Z.to_nat n) (length (value_counts cells)))
    by apply length_take.
  rewrite <- Hsplit in Hnd, Hord.
  rewrite map_app in Hnd. apply NoDup_app in Hnd as (Hnd & _ & _).
  apply ordered_app in Hord as [Hord Hcross].
  split; [lia|]. split; [exact Hnd|]. split; [exact Hord|]. split.
  - intros v k Hvk. rewrite <- Hheld. apply Hin. rewrite <- Hsplit.
    apply elem_of_app. auto.
  - intros v Hv.
    assert (Hall : (v, held v) ∈ shown ++ rest).
    { rewrite Hsplit. apply Hin. rewrite Hheld. auto. }
    apply elem_of_app in Hall as [Hs|Hr]; [auto|]. right. split.
    + assert (length rest <> 0%nat) by (destruct rest; [inversion Hr|discriminate]).
      assert (length rest = (length (value_counts cells) - Z.to_nat n)%nat)
        by apply length_drop.
      lia.
    + intros a Ha. apply (Hcross a (v, held v) Ha Hr).
Qed.

Lemma explorer_shows_top_n_witness :
  let held v :=
    Z.of_nat (length (filter (fun e => attrs e !! "mp_os" = Some v)
                             (rows three_days))) in
  Z.of_nat (length [("Android", 3)]) <= Z.max 0 1
  /\ NoDup (map fst [("Android", 3)])
  /\ ordered (fun a b => snd b <= snd a) [("Android", 3)]
  /\ (forall v k, (v, k) ∈ [("Android", 3)] -> k = held v /\ 1 <= k)
  /\ (forall v, 1 <= held v ->
        (v, held v) ∈ [("Android", 3)]
        \/ (Z.of_nat (length [("Android", 3)]) = Z.max 0 1
            /\ forall a, a ∈ [("Android", 3)] -> held v <= snd a)).
Proof.
  apply (explorer_shows_top_n three_days "mp_os" 1 [("Android", 3)]).
  vm_compute. reflexivity.
Defined.

(** ** The campaign chart *)

Lemma group_size_spec keys :
  NoDup (map fst (group_size keys))
  /\ (forall s c, (s, c) ∈ group_size keys
                  <-> c = occurrences keys s /\ 1 <= c)
  /\ total (group_size keys)
     = Z.of_nat (length (filter (fun c => c <> None) keys)).
Proof.
  unfold group_size.
  set (table := map (fun s => (s, occurrences keys s)) (uniques [] keys)).
  assert (Hperm : sort_by (fun a b => String.leb (fst a) (fst b)) table ≡ₚ table)
    by apply sort_by_perm.
  split; [|split].
  - rewrite Hperm. subst table. rewrite map_map. simpl. rewrite map_id.
    apply uniques_NoDup.
  - intros s c. rewrite sort_by_elem. subst table. rewrite list_elem_of_fmap.
    split.
    + intros (s' & [= -> ->] & Hs). apply uniques_elem in Hs as [Hs _].
      split; [reflexivity|]. apply occurrences_pos, Hs.
    + intros [-> Hpos]. exists s. split; [reflexivity|].
      apply uniques_elem. split; [apply occurrences_pos, Hpos|].
      intros Hin. inversion Hin.
  - rewrite (total_perm _ _ Hperm). subst table. unfold occurrences.
    rewrite (total_counts Some (uniques [] keys) keys)
      by (apply NoDup_fmap_2; [intros ? ? [=]; auto|apply uniques_NoDup]).
    do 2 f_equal. apply filter_ext_in. intros c Hc. split.
    + intros Hin Hnone. subst c.
      apply list_elem_of_fmap in Hin as (? & [=] & _).
    + intros Hne. destruct c as [s|]; [|contradiction].
      apply list_elem_of_fmap. exists s. split; [reflexivity|].
      apply uniques_elem. split; [exact Hc|]. intros Hin. inversion Hin.
Qed.

(** X14: the campaign table counts conversions only.  It has one row per
    campaign that has a filtered [BINGE-SUBSCRIPTION] or
    [SUBSCRIBE-SUCCESS] row, with the number of such rows (at least 1);
    rows of any other event, and conversions without a campaign, are
    counted nowhere; the chart shows these rows largest count first. *)
Theorem campaign_summary_counts (filtered : DataFrame) (t : list (string * Z)) :
  campaign_summary filtered = Ok t ->
  let conversion e :=
    event_name e = Some "BINGE-SUBSCRIPTION"
    \/ event_name e = Some "SUBSCRIBE-SUCCESS" in
  NoDup (map fst t)
  /\ (forall camp c, (camp, c) ∈ t <->
        c = Z.of_nat (length (filter (fun e => conversion e
                                        /\ attrs e !! "af_campaign" = Some camp)
                                     (rows filtered)))
        /\ 1 <= c)
  /\ total t
     = Z.of_nat (length (filter (fun e => conversion e
                                   /\ attrs e !! "af_campaign" <> None)
                                (rows filtered)))
  /\ sort_desc t ≡ₚ t
  /\ ordered (fun a b => snd b <= snd a) (sort_desc t).
Proof.
  intros Hrun conversion. unfold campaign_summary, getcol in Hrun.
  case_decide; [|discriminate]. simpl in Hrun. injection Hrun as <-.
  set (conv := filter _ (rows filtered)).
  assert (Hconv : forall (P : Event -> Prop) `{!forall e, Decision (P e)},
            length (filter P conv)
            = length (filter (fun e => conversion e /\ P e) (rows filtered))).
  { intros P HP. subst conv. rewrite list_filter_filter. f_equal.
    apply list_filter_iff. intros e. unfold conversion, isin.
    destruct (event_name e) as [name|]; simpl.
    - rewrite !elem_of_cons, elem_of_nil. split.
      + intros [HPe [->|[->|[]]]]; auto.
      + intros [[[= ->]|[= ->]] HPe]; auto.
    - split; [tauto|]. intros [[?|?] _]; discriminate. }
  destruct (group_size_spec (map (fun e => attrs e !! "af_campaign") conv))
    as (Hnd & Hin & Htot).
  split; [exact Hnd|]. split; [|split; [|split]].
  - intros camp c. rewrite Hin. unfold occurrences.
    rewrite length_filter_fmap, Hconv. reflexivity.
  - rewrite Htot, length_filter_fmap, Hconv. reflexivity.
  - apply sort_by_perm.
  - apply (sort_by_ordered (fun a b => snd b <= snd a)
                           (fun a b => snd b <=? snd a)).
    + intros a b Hab. apply Z.leb_le, Hab.
    + intros a b Hab. apply Z.leb_gt in Hab. lia.
    + intros a b c ? ?. lia.
Qed.

Lemma campaign_summary_counts_witness :
  let conversion e :=
    event_name e = Some "BINGE-SUBSCRIPTION"
    \/ event_name e = Some "SUBSCRIBE-SUCCESS" in
  let t := [("summer", 2); ("winter", 1)] in
  NoDup (map fst t)
  /\ (forall camp c, (camp, c) ∈ t <->
        c = Z.of_nat (length (filter (fun e => conversion e
                                        /\ attrs e !! "af_campaign" = Some camp)
                                     (rows campaign_sheet)))
        /\ 1 <= c)
  /\ total t
     = Z.of_nat (length (filter (fun e => conversion e
                                   /\ attrs e !! "af_campaign" <> None)
                                (rows campaign_sheet)))
  /\ sort_desc t ≡ₚ t
  /\ ordered (fun a b => snd b <= snd a) (sort_desc t).
Proof.
  apply (campaign_summary_counts campaign_sheet [("summer", 2); ("winter", 1)]).
  vm_compute. reflexivity.
Defined.

(** ** Exact percentages *)

Lemma div_self m e :
  2 ^ 52 <= Z.pos m < 2 ^ 53 ->
  SFdiv PyFloat.prec PyFloat.emax (S754_finite false m e) (S754_finite false m e)
  = S754_finite false 4503599627370496 (-52).
Proof.
  intros Hm. unfold SFdiv, SFdiv_core_binary. cbn [xorb].
  assert (Hd : Zdigits2 (Z.pos m) = 53) by (apply Zdigits2_unique; simpl; lia).
  rewrite Hd. replace (53 + e - (53 + e)) with 0 by lia.
  replace (e - e) with 0 by lia.
  rewrite fexp_normal by lia.
  change (Z.min (0 - 53) 0) with (-53). change (0 - -53) with 53.
  rewrite Z.shiftl_mul_pow2 by lia.
  pose proof (Z_div_mod (Z.pos m * 2 ^ 53) (Z.pos m)) as Hdm.
  destruct (Z.div_eucl (Z.pos m * 2 ^ 53) (Z.pos m)) as [q r].
  destruct Hdm as [Hqr Hr]; [lia|].
  assert (q = 2 ^ 53 /\ r = 0) as [-> ->].
  { assert (Z.pos m * (2 ^ 53 - q) = r) by lia.
    destruct (Z.lt_trichotomy q (2 ^ 53)) as [Hlt|[Heq|Hgt]]; [|lia|].
    - assert (Z.pos m * 1 <= Z.pos m * (2 ^ 53 - q))
        by (apply Z.mul_le_mono_nonneg_l; lia). lia.
    - assert (Z.pos m * (2 ^ 53 - q) <= Z.pos m * (-1))
        by (apply Z.mul_le_mono_nonneg_l; lia). lia. }
  assert (Hloc : new_location (Z.pos m) 0 = loc_Exact).
  { unfold new_location, new_location_even, new_location_odd.
    destruct (Z.even (Z.pos m)); reflexivity. }
  rewrite Hloc. vm_compute. reflexivity.
Qed.

(** X15: 100.0 and 0.0 come out exactly.  When a step has as many filtered
    rows as the step before it (and at least one), the percentage is the
    float 100.0; when it has none while the step before has some, the
    percentage is the float 0.0, where an empty source step gives the
    integer 0. *)
Theorem conv_percent_exact (n : Z) :
  0 < n < 2 ^ 53 ->
  conv_percent n n = Ok (PyFloat (PyFloat.of_int 100))
  /\ conv_percent n 0 = Ok (PyFloat (S754_zero false))
  /\ conv_percent 0 n = Ok (PyInt 0).
Proof.
  intros Hn. rewrite !conv_percent_ok. unfold percent_of.
  replace (n >? 0) with true by (symmetry; apply Z.gtb_lt; lia).
  unfold percent_float, float_mul_int, PyFloat.mul, PyFloat.div.
  destruct (of_int_normal n Hn) as (m & e & -> & Hm & _ & _).
  rewrite div_self by exact Hm. split; [|split]; reflexivity.
Qed.

Lemma conv_percent_exact_witness :
  conv_percent 7 7 = Ok (PyFloat (PyFloat.of_int 100))
  /\ conv_percent 7 0 = Ok (PyFloat (S754_zero false))
  /\ conv_percent 0 7 = Ok (PyInt 0).
Proof. apply (conv_percent_exact 7). vm_compute. split; reflexivity. Defined.

(** ** The payment and pack charts *)

Lemma zip_with_rows {A B C D} (f : A -> B -> C) (g : D -> A) (h : D -> B)
    (l : list D) :
  zip_with f (map g l) (map h l) = map (fun x => f (g x) (h x)) l.
Proof. induction l as [|x l IH]; simpl; [reflexivity|]. rewrite IH. reflexivity. Qed.

(** X16: the payment table is made only when the sheet has both payment
    columns, and never raises.  It then has one row per (method, status)
    pair seen together in a filtered row, with the number of such rows (at
    least 1); rows with either cell null are counted nowhere. *)
Theorem payment_summary_counts (filtered : DataFrame) :
  (payment_summary filtered = Ok None <->
     ~ ("payment_method" ∈ columns filtered
        /\ "payment_status" ∈ columns filtered))
  /\ (forall e, payment_summary filtered <> Raise e)
  /\ forall t, payment_summary filtered = Ok (Some t) ->
       NoDup (map fst t)
       /\ (forall m s c, (m, s, c) ∈ t <->
             c = Z.of_nat (length (filter
                   (fun e => attrs e !! "payment_method" = Some m
                             /\ attrs e !! "payment_status" = Some s)
                   (rows filtered)))
             /\ 1 <= c)
       /\ total t
          = Z.of_nat (length (filter
                (fun e => attrs e !! "payment_method" <> None
                          /\ attrs e !! "payment_status" <> None)
                (rows filtered))).
Proof.
  unfold payment_summary.
  destruct (decide ("payment_method" ∈ columns filtered
                    /\ "payment_status" ∈ columns filtered)) as [[Hm Hs]|Hno].
  2: { split; [tauto|]. split; discriminate. }
  rewrite !getcol_ok by assumption. cbn [bind].
  split; [split; [discriminate|tauto]|]. split; [discriminate|].
  intros t [= <-]. unfold pair_cells. rewrite zip_with_rows.
  set (pairf := fun e : Event =>
                  match attrs e !! "payment_method", attrs e !! "payment_status" with
                  | Some x, Some y => Some (x, y)
                  | _, _ => None
                  end).
  set (keys := map pairf (rows filtered)).
  set (table := map (fun k => (k, Z.of_nat (length (filter (fun c => c = Some k) keys))))
                    (remove_dups (omap id keys))).
  assert (Hperm : sort_by (fun a b => pair_leb (fst a) (fst b)) table ≡ₚ table)
    by apply sort_by_perm.
  assert (Hkey : forall k, k ∈ remove_dups (omap id keys) <-> Some k ∈ keys).
  { intros k. rewrite elem_of_remove_dups, list_elem_of_omap. split.
    - intros (x & Hx & Hid). simpl in Hid. subst x. exact Hx.
    - intros Hk. exists (Some k). auto. }
  assert (Hpair : forall e m s, pairf e = Some (m, s) <->
            attrs e !! "payment_method" = Some m
            /\ attrs e !! "payment_status" = Some s).
  { intros e m s. unfold pairf.
    destruct (attrs e !! "payment_method"), (attrs e !! "payment_status");
      split; try intros [= -> ->]; try intros [[=] [=]]; subst; auto;
      try discriminate. }
  assert (Hsome : forall e, pairf e <> None <->
            attrs e !! "payment_method" <> None
            /\ attrs e !! "payment_status" <> None).
  { intros e. unfold pairf.
    destruct (attrs e !! "payment_method"), (attrs e !! "payment_status");
      split; try tauto; try (intros _; split; discriminate);
      try discriminate. }
  split; [|split].
  - rewrite Hperm. subst table. rewrite map_map. simpl. rewrite map_id.
    apply NoDup_remove_dups.
  - intros m s c. rewrite sort_by_elem. subst table. rewrite list_elem_of_fmap.
    assert (Hcount : forall m' s',
              length (filter (fun c => c = Some (m', s')) keys)
              = length (filter (fun e => attrs e !! "payment_method" = Some m'
                                         /\ attrs e !! "payment_status" = Some s')
                               (rows filtered))).
    { intros m' s'. subst keys. rewrite length_filter_fmap. f_equal.
      apply list_filter_iff. intros e. apply Hpair. }
    rewrite <- Hcount. split.
    + intros (k & [= <- ->] & Hk). split; [reflexivity|]. apply Hkey in Hk.
      assert (Hin : Some (m, s) ∈ filter (fun c => c = Some (m, s)) keys)
        by (apply list_elem_of_filter; split; [reflexivity|exact Hk]).
      destruct (filter _ keys); [inversion Hin|simpl; lia].
    + intros [-> Hpos]. exists (m, s). split; [reflexivity|]. apply Hkey.
      destruct (filter (fun c => c = Some (m, s)) keys) as [|x l] eqn:Hf;
        [simpl in Hpos; lia|].
      assert (Hx : x ∈ filter (fun c => c = Some (m, s)) keys)
        by (rewrite Hf; apply elem_of_cons; auto).
      apply list_elem_of_filter in Hx as [-> Hx]. exact Hx.
  - rewrite (total_perm _ _ Hperm). subst table.
    rewrite (total_counts Some (remove_dups (omap id keys)) keys)
      by (apply NoDup_fmap_2; [intros ? ? [=]; auto|apply NoDup_remove_dups]).
    f_equal.
    rewrite (filter_ext_in _ (fun c => c <> None)).
    + subst keys. rewrite length_filter_fmap. f_equal.
      apply list_filter_iff. intros e. apply Hsome.
    + intros c Hc. split.
      * intros Hin ->. apply list_elem_of_fmap in Hin as (? & [=] & _).
      * intros Hne. destruct c as [k|]; [|contradiction].
        apply list_elem_of_fmap. exists k. split; [reflexivity|].
        apply Hkey, Hc.
Qed.

Lemma payment_summary_counts_witness :
  (payment_summary payment_sheet = Ok None <->
     ~ ("payment_method" ∈ columns payment_sheet
        /\ "payment_status" ∈ columns payment_sheet))
  /\ (forall e, payment_summary payment_sheet <> Raise e)
  /\ forall t, payment_summary payment_sheet = Ok (Some t) ->
       NoDup (map fst t)
       /\ (forall m s c, (m, s, c) ∈ t <->
             c = Z.of_nat (length (filter
                   (fun e => attrs e !! "payment_method" = Some m
                             /\ attrs e !! "payment_status" = Some s)
                   (rows payment_sheet)))
             /\ 1 <= c)
       /\ total t
          = Z.of_nat (length (filter
                (fun e => attrs e !! "payment_method" <> None
                          /\ attrs e !! "payment_status" <> None)
                (rows payment_sheet))).
Proof. exact (payment_summary_counts payment_sheet). Defined.

Example payment_summary_of_sheet :
  payment_summary payment_sheet
  = Ok (Some [("card", "failed", 1); ("card", "ok", 2); ("upi", "ok", 1)]).
Proof. vm_compute. reflexivity. Qed.

Lemma group_size_keys keys s :
  s ∈ map fst (group_size keys) <-> Some s ∈ keys.
Proof.
  destruct (group_size_spec keys) as (_ & Hin & _).
  rewrite list_elem_of_fmap. split.
  - intros ([s' c] & -> & Hsc). apply Hin in Hsc as [-> Hpos]. simpl.
    apply occurrences_pos, Hpos.
  - intros Hs. exists (s, occurrences keys s). split; [reflexivity|].
    apply Hin. split; [reflexivity|]. apply occurrences_pos, Hs.
Qed.

(** X17: the pack table is made only when the sheet has a [pack_name]
    column, and then needs [pack_price] too (its absence raises).  It lists
    every pack named in a filtered row, once, and counts for each the rows
    of that pack whose price is not null: a pack without any price is
    listed with count 0, and a price without a pack name is counted
    nowhere. *)
Theorem pack_summary_counts (filtered : DataFrame) :
  (pack_summary filtered = Ok None <-> "pack_name" ∉ columns filtered)
  /\ (forall e, pack_summary filtered = Raise e <->
        e = KeyError (Some "pack_price")
        /\ "pack_name" ∈ columns filtered
        /\ "pack_price" ∉ columns filtered)
  /\ forall t, pack_summary filtered = Ok (Some t) ->
       NoDup (map fst t)
       /\ (forall p c, (p, c) ∈ t <->
             Some p ∈ map (fun e => attrs e !! "pack_name") (rows filtered)
             /\ c = Z.of_nat (length (filter
                      (fun e => attrs e !! "pack_name" = Some p
                                /\ attrs e !! "pack_price" <> None)
                      (rows filtered))))
       /\ total t
          = Z.of_nat (length (filter
                (fun e => attrs e !! "pack_name" <> None
                          /\ attrs e !! "pack_price" <> None)
                (rows filtered))).
Proof.
  unfold pack_summary.
  destruct (decide ("pack_name" ∈ columns filtered)) as [Hn|Hn].
  2: { split; [tauto|]. split; [|discriminate].
       intros e. split; [discriminate|tauto]. }
  rewrite (getcol_ok _ "pack_name") by exact Hn. cbn [bind].
  destruct (decide ("pack_price" ∈ columns filtered)) as [Hp|Hp].
  2: { rewrite getcol_raise by exact Hp. cbn [bind].
       split; [split; [discriminate|tauto]|]. split; [|discriminate].
       intros e. split; [intros [= <-]; auto|intros (-> & _); reflexivity]. }
  rewrite getcol_ok by exact Hp. cbn [bind].
  split; [split; [discriminate|tauto]|]. split.
  { intros e. split; [discriminate|tauto]. }
  intros t [= <-]. rewrite zip_with_rows.
  set (names := map (fun e => attrs e !! "pack_name") (rows filtered)).
  set (pricedf := fun e : Event =>
                    match attrs e !! "pack_price" with
                    | Some _ => attrs e !! "pack_name"
                    | None => None
                    end).
  set (D := map fst (group_size names)).
  assert (HD : NoDup D) by (destruct (group_size_spec names) as (H & _); exact H).
  assert (Hpriced : forall p e, pricedf e = Some p <->
            attrs e !! "pack_name" = Some p /\ attrs e !! "pack_price" <> None).
  { intros p e. unfold pricedf. destruct (attrs e !! "pack_price").
    - split; [intros ->; split; [reflexivity|discriminate]|tauto].
    - split; [discriminate|tauto]. }
  assert (Hocc : forall p, occurrences (map pricedf (rows filtered)) p
            = Z.of_nat (length (filter
                  (fun e => attrs e !! "pack_name" = Some p
                            /\ attrs e !! "pack_price" <> None)
                  (rows filtered)))).
  { intros p. unfold occurrences. rewrite length_filter_fmap. do 2 f_equal.
    apply list_filter_iff. intros e. apply Hpriced. }
  split; [|split].
  - rewrite map_map. simpl. rewrite map_id. exact HD.
  - intros p c. rewrite list_elem_of_fmap. rewrite <- Hocc. split.
    + intros (p' & [= -> ->] & Hp'). split; [|reflexivity].
      apply group_size_keys, Hp'.
    + intros [Hin ->]. exists p. split; [reflexivity|].
      apply group_size_keys, Hin.
  - unfold occurrences.
    rewrite (total_counts Some D (map pricedf (rows filtered)))
      by (apply NoDup_fmap_2; [intros ? ? [=]; auto|exact HD]).
    f_equal. rewrite (filter_ext_in _ (fun c => c <> None)).
    + rewrite length_filter_fmap. f_equal. apply list_filter_iff.
      intros e. unfold pricedf.
      destruct (attrs e !! "pack_price"), (attrs e !! "pack_name");
        split; try tauto; try (intros _; split; discriminate);
        try (intros [? ?]; discriminate).
    + intros c Hc. split.
      * intros Hin ->. apply list_elem_of_fmap in Hin as (? & [=] & _).
      * intros Hne. destruct c as [p|]; [|contradiction].
        apply list_elem_of_fmap. exists p. split; [reflexivity|].
        apply group_size_keys.
        apply list_elem_of_fmap in Hc as (e & He & Hin).
        symmetry in He. apply Hpriced in He as [He _].
        apply list_elem_of_fmap. exists e. auto.
Qed.

Example pack_summary_of_sheet :
  pack_summary payment_sheet = Ok (Some [("basic", 0); ("gold", 2)]).
Proof. vm_compute. reflexivity. Qed.
